(** * PySurfer [io.py]: binary decoders and the Surface container

    A shallow embedding of [src/pysurfer/io.py] and the properties of it
    that its specification states.

    Conventions of the embedding.
    - The module is Python 2 code ([xrange] in [read_annot], no
      [from __future__ import division]) on the NumPy of that time:
      [/] between integers is floor division, a NumPy scalar combined
      with a Python [int] is computed at 64 bits, two [np.int32] scalars
      at 32 bits, and [np.int] is the C [long] of a 64-bit platform.
    - A file is the list of its bytes; an open file object is a
      [stream]: contents, position, and whether it was closed.
    - An exception is a value of [exn]; code that may raise lives in the
      state-and-exception monad [M] over the stream.
    - [float64] values are Rocq's primitive binary64 floats, a [float32]
      is held as the double it converts to exactly. *)

From Stdlib Require Import ZArith List String Ascii Lia Bool.
From Stdlib.Strings Require Import Byte.
From Stdlib Require Import Floats.
From stdpp Require Import gmap strings.

Import ListNotations.
Local Open Scope Z_scope.

(** ** Exceptions and results *)

Inductive exn : Type :=
| NotImplementedError (msg : string)
| ValueError (msg : string)
| AttributeError (attr : string)
| IndexError
| KeyError
| TypeError
| IOError
| ImageFileError.

Inductive result (A : Type) : Type :=
| Ok (a : A)
| Raise (e : exn).
Arguments Ok {A} a.
Arguments Raise {A} e.

Definition is_ok {A} (r : result A) : bool :=
  match r with Ok _ => true | Raise _ => false end.

(** The names the specification gives to the failures of this module. *)
Module Taxonomy.

Definition UnsupportedFormatError (e : exn) : bool :=
  match e with NotImplementedError _ => true | _ => false end.

Definition InvalidFormatError (e : exn) : bool :=
  match e with ValueError _ => true | _ => false end.

Definition MissingDependencyError (e : exn) : bool :=
  match e with AttributeError _ => true | _ => false end.

End Taxonomy.

(** ** Byte streams *)

Record stream : Type := mkStream {
  content : list byte;
  pos : nat;
  closed : bool
}.

Definition open_stream (bs : list byte) : stream :=
  {| content := bs; pos := 0%nat; closed := false |}.

(** The bytes from the current position to the end of the file. *)
Definition rest (s : stream) : list byte := drop (pos s) (content s).

Definition advance (n : nat) (s : stream) : stream :=
  {| content := content s; pos := (pos s + n)%nat; closed := closed s |}.

Definition close (s : stream) : stream :=
  {| content := content s; pos := pos s; closed := true |}.

Definition M (A : Type) : Type := stream -> result A * stream.

Definition ret {A} (a : A) : M A := fun s => (Ok a, s).
Definition raise {A} (e : exn) : M A := fun s => (Raise e, s).
Definition bind {A B} (m : M A) (k : A -> M B) : M B :=
  fun s => match m s with
           | (Ok a, s') => k a s'
           | (Raise e, s') => (Raise e, s')
           end.

Notation "'let*' x ':=' m 'in' k" := (bind m (fun x => k))
  (at level 10, x name, m at level 100, k at level 200).

Definition lift {A} (r : result A) : M A := fun s => (r, s).

(** A file system: the contents of the files that exist, by path. *)
Definition filesystem : Type := gmap string (list byte).

(** [with open(filepath, "rb") as fobj: body]. *)
Definition with_open {A} (fs : filesystem) (filepath : string) (body : M A)
  : result A :=
  match fs !! filepath with
  | None => Raise IOError
  | Some bs => fst (body (open_stream bs))
  end.

(** ** Big-endian numbers *)

Definition byte_val (b : byte) : Z := Z.of_N (Byte.to_N b).

Definition be_uint (bs : list byte) : Z :=
  fold_left (fun acc b => acc * 256 + byte_val b) bs 0.

(** Two's complement reading of an unsigned [w]-bit value. *)
Definition signed (w : Z) (u : Z) : Z :=
  if u <? 2 ^ (w - 1) then u else u - 2 ^ w.

(** Wrap-around of a fixed-width signed integer. *)
Definition wrap (w : Z) (z : Z) : Z := signed w (z mod 2 ^ w).

Definition be_int (bs : list byte) : Z :=
  signed (8 * Z.of_nat (length bs)) (be_uint bs).

(** The double a big-endian [float32] converts to. *)
Definition f4_of_bits (u : Z) : float :=
  let sgn := Z.testbit u 31 in
  let e := Z.land (Z.shiftr u 23) 255 in
  let m := Z.land u (2 ^ 23 - 1) in
  SF2Prim
    (if e =? 255 then (if m =? 0 then S754_infinity sgn else S754_nan)
     else if e =? 0 then
       match m with
       | Zpos p => S754_finite sgn p (-149)
       | _ => S754_zero sgn
       end
     else
       match m + 2 ^ 23 with
       | Zpos p => S754_finite sgn p (e - 150)
       | _ => S754_nan
       end).

Definition be_f4 (bs : list byte) : float := f4_of_bits (be_uint bs).

(** ** [np.fromfile] and friends *)

(** The first [n] complete items of [size] elements in [bs]. *)
Fixpoint items {A} (size : nat) (n : nat) (bs : list A) : list (list A) :=
  match n with
  | O => []
  | S n' =>
      if (size <=? length bs)%nat
      then take size bs :: items size n' (drop size bs)
      else []
  end.

(** [np.fromfile(fobj, dtype, count)] for a dtype of [size] bytes: the
    items come back undecoded.  A negative [count] reads every complete
    item that is left.  A read that meets the end of the file returns
    the complete items it got (no exception) and leaves the position at
    the end.  A dtype of size 0 is refused. *)
Definition np_fromfile (size : nat) (count : Z) : M (list (list byte)) :=
  fun s =>
    match size with
    | O => (Raise (ValueError "The elements are 0-sized."), s)
    | _ =>
        let bs := rest s in
        let have := (length bs / size)%nat in
        if count <? 0
        then (Ok (items size have bs), advance (have * size) s)
        else
          let want := Z.to_nat count in
          (Ok (items size want bs),
           advance (Nat.min (want * size) (length bs)) s)
    end.

(** [a[0]] on a one-dimensional array. *)
Definition item0 {A} (a : list A) : result A :=
  match a with
  | x :: _ => Ok x
  | [] => Raise IndexError
  end.

(** [np.fromfile(fobj, ">i4", count)]. *)
Definition fromfile_i4 (count : Z) : M (list Z) :=
  let* raw := np_fromfile 4 count in ret (map be_int raw).

(** [np.fromfile(fobj, ">i2", count)]. *)
Definition fromfile_i2 (count : Z) : M (list Z) :=
  let* raw := np_fromfile 2 count in ret (map be_int raw).

(** [np.fromfile(fobj, ">u1", count)]. *)
Definition fromfile_u1 (count : Z) : M (list Z) :=
  let* raw := np_fromfile 1 count in ret (map be_uint raw).

(** [np.fromfile(fobj, ">f4", count)]. *)
Definition fromfile_f4 (count : Z) : M (list float) :=
  let* raw := np_fromfile 4 count in ret (map be_f4 raw).

(** [np.fromfile(fobj, dt, 1)[0]] with [dt = ">i4"]. *)
Definition fromfile_i4_0 : M Z :=
  let* a := fromfile_i4 1 in lift (item0 a).

(** [np.fromfile(fobj, "|S%d" % length, 1)[0]]: a negative length is not
    a dtype, length 0 is a dtype of size 0. *)
Definition fromfile_S_0 (length : Z) : M (list byte) :=
  if length <? 0 then raise TypeError
  else let* a := np_fromfile (Z.to_nat length) 1 in lift (item0 a).

(** [fobj.readline()]: up to and including the next newline, or to the
    end of the file. *)
Fixpoint line_length (bs : list byte) : nat :=
  match bs with
  | [] => O
  | b :: bs' => if Byte.eqb b "010"%byte then 1%nat else S (line_length bs')
  end.

Definition readline : M (list byte) :=
  fun s => let n := line_length (rest s) in (Ok (take n (rest s)), advance n s).

(** A two-dimensional array: its rows, and the number of columns (which
    the rows do not tell when there are none). *)
Record array2 (A : Type) : Type := mkArray2 {
  ncols : nat;
  rows : list (list A)
}.
Arguments mkArray2 {A} ncols rows.
Arguments ncols {A} a.
Arguments rows {A} a.

Definition nrows {A} (a : array2 A) : nat := length (rows a).

(** An array of [r] rows that all have [c] elements. *)
Definition has_shape {A} (a : array2 A) (r c : nat) : Prop :=
  nrows a = r /\ ncols a = c /\ Forall (fun row => length row = c) (rows a).

(** [a.reshape(rows, cols)] of a one-dimensional array.  A negative
    [rows] is the dimension to infer. *)
Definition reshape {A} (a : list A) (rows : Z) (cols : nat)
  : result (array2 A) :=
  let mismatch := ValueError "total size of new array must be unchanged" in
  if rows <? 0 then
    match cols with
    | O => Raise mismatch
    | _ => if (length a mod cols =? 0)%nat
           then Ok (mkArray2 cols (items cols (length a / cols) a))
           else Raise mismatch
    end
  else
    if (length a =? Z.to_nat rows * cols)%nat
    then Ok (mkArray2 cols (items cols (Z.to_nat rows) a))
    else Raise mismatch.

(** ** Arrays *)

Inductive dtype : Type := i1 | i2 | i4 | i8 | f4 | f8.

(** A one-dimensional NumPy array: its element type and its elements. *)
Inductive ndarray : Type :=
| IntArray (dt : dtype) (a : list Z)
| FloatArray (dt : dtype) (a : list float).

(** [a.size]. *)
Definition array_size (a : ndarray) : nat :=
  match a with
  | IntArray _ l => length l
  | FloatArray _ l => length l
  end.

(** ** [_fread3] *)

(** [b1, b2, b3 = np.fromfile(fobj, ">u1", 3)] needs exactly three
    items to unpack. *)
Definition _fread3 : M Z :=
  let* a := fromfile_u1 3 in
  match a with
  | [b1; b2; b3] => ret (Z.shiftl b1 16 + Z.shiftl b2 8 + b3)
  | _ => raise (ValueError "need more values to unpack")
  end.

(** ** [read_geometry] *)

Definition read_geometry (fs : filesystem) (filepath : string)
  : result (array2 float * array2 Z) :=
  with_open fs filepath (
    let* magic := _fread3 in
    if magic =? 16777215 then
      raise (NotImplementedError
               "Quadrangle surface format reading not implemented")
    else if negb (magic =? 16777214) then
      raise (ValueError "File does not appear to be a Freesurfer surface")
    else
      let* create_stamp := readline in
      let* _ := readline in
      let* vnum := fromfile_i4_0 in
      let* fnum := fromfile_i4_0 in
      let* c := fromfile_f4 (vnum * 3) in
      let* coords := lift (reshape c vnum 3) in
      let* f := fromfile_i4 (fnum * 3) in
      let* faces := lift (reshape f fnum 3) in
      (* coords.astype(np.float): a float32 is already held as a double *)
      ret (coords, faces)).

(** ** [read_curvature] *)

Definition read_curvature (fs : filesystem) (filepath : string)
  : result ndarray :=
  with_open fs filepath (
    let* magic := _fread3 in
    if magic =? 16777215 then
      let* h := fromfile_i4 3 in
      let* vnum := lift (item0 h) in
      let* curv := fromfile_f4 vnum in
      ret (FloatArray f4 curv)
    else
      let vnum := magic in
      let* _ := _fread3 in
      let* a := fromfile_i2 vnum in
      (* an int16 array [/ 100]: integer (floor) division, still int16 *)
      ret (IntArray i2 (map (fun v => v / 100) a))).

(** ** [read_annot] *)

(** Width of [np.int], the C [long]. *)
Definition np_int_bits : Z := 64.

Definition int_add (x y : Z) : Z := wrap np_int_bits (x + y).
Definition int_mul (x y : Z) : Z := wrap np_int_bits (x * y).

(** [np.zeros((rows, cols), np.int)]. *)
Definition np_zeros2 (rows : Z) (cols : nat) : result (array2 Z) :=
  if rows <? 0 then Raise (ValueError "negative dimensions are not allowed")
  else Ok (mkArray2 cols (replicate (Z.to_nat rows) (replicate cols 0))).

(** [ctab[i, :4] = v] for a one-dimensional [v]: row [i] must exist, and
    [v] must have four elements, or one, which is then broadcast. *)
Definition set_row_prefix4 (ctab : array2 Z) (i : nat) (v : list Z)
  : result (array2 Z) :=
  match rows ctab !! i with
  | None => Raise IndexError
  | Some row =>
      match v with
      | [r; g; b; a] =>
          Ok (mkArray2 (ncols ctab) (<[i := [r; g; b; a] ++ drop 4 row]> (rows ctab)))
      | [x] =>
          Ok (mkArray2 (ncols ctab) (<[i := [x; x; x; x] ++ drop 4 row]> (rows ctab)))
      | _ => Raise (ValueError "shape mismatch")
      end
  end.

(** [ctab[i, j]] for indices in range. *)
Definition get2 (ctab : array2 Z) (i j : nat) : Z :=
  nth j (nth i (rows ctab) []) 0.

(** [ctab[i, j] = v] for indices in range. *)
Definition set2 (ctab : array2 Z) (i j : nat) (v : Z) : array2 Z :=
  mkArray2 (ncols ctab) (<[i := <[j := v]> (nth i (rows ctab) [])]> (rows ctab)).

(** [for x in l: acc = body(x, acc)]. *)
Fixpoint for_each {A S} (l : list A) (body : A -> S -> M S) (acc : S) : M S :=
  match l with
  | [] => ret acc
  | x :: l' => let* acc' := body x acc in for_each l' body acc'
  end.

(** [xrange(n)]. *)
Definition xrange (n : Z) : list nat := seq 0 (Z.to_nat n).

(** The body of the loop over the stored entries of the colour table. *)
Definition read_annot_entry (i : nat) (ctab : array2 Z) : M (array2 Z) :=
  let* _ := fromfile_i4_0 in                      (* Structure *)
  let* name_length := fromfile_i4_0 in
  let* _ := fromfile_S_0 name_length in           (* Struct name *)
  let* rgba := fromfile_i4 4 in
  let* ctab := lift (set_row_prefix4 ctab i rgba) in
  ret (set2 ctab i 4
         (int_add
            (int_add
               (int_add (get2 ctab i 0) (int_mul (get2 ctab i 1) (2 ^ 8)))
               (int_mul (get2 ctab i 2) (2 ^ 16)))
            (int_mul (get2 ctab i 3) (2 ^ 24)))).

(** The result is [None] for a bare [return], else the colour table. *)
Definition read_annot (fs : filesystem) (filepath : string)
  : result (option (array2 Z)) :=
  with_open fs filepath (
    let* vnum := fromfile_i4_0 in
    let* d := fromfile_i4 (vnum * 2) in
    let* data := lift (reshape d vnum 2) in
    let annot := map (fun row => nth 1 row 0) (rows data) in
    let* ctab_exists := fromfile_i4_0 in
    if ctab_exists =? 0 then ret None
    else
      let* ctab_version := fromfile_i4_0 in
      if negb (ctab_version =? -2) then ret None
      else
        let* n_entries := fromfile_i4_0 in
        let* ctab := lift (np_zeros2 n_entries 5) in
        let* length := fromfile_i4_0 in
        let* _ := fromfile_S_0 length in          (* Orig table path *)
        let* entries_to_read := fromfile_i4_0 in
        let* ctab := for_each (xrange entries_to_read) read_annot_entry ctab in
        ret (Some ctab)).

(** ** Results without a stream *)

Definition rbind {A B} (r : result A) (k : A -> result B) : result B :=
  match r with
  | Ok a => k a
  | Raise e => Raise e
  end.

Notation "'let+' x ':=' r 'in' k" := (rbind r (fun x => k))
  (at level 10, x name, r at level 100, k at level 200).

(** ** Paths *)

Definition startswith_slash (b : string) : bool :=
  match b with
  | String c _ => Ascii.eqb c "/"
  | EmptyString => false
  end.

Fixpoint endswith_slash (p : string) : bool :=
  match p with
  | EmptyString => false
  | String c EmptyString => Ascii.eqb c "/"
  | String _ p' => endswith_slash p'
  end.

(** One step of [os.path.join]. *)
Definition join2 (path b : string) : string :=
  if startswith_slash b then b
  else if String.eqb path "" || endswith_slash path then path +:+ b
  else path +:+ "/" +:+ b.

(** [os.path.join(a, *p)]. *)
Definition pjoin (a : string) (p : list string) : string := fold_left join2 p a.

(** [p.rfind(c)]: the index of the last [c] in [p], or -1. *)
Fixpoint rfind_from (c : ascii) (p : string) (i found : Z) : Z :=
  match p with
  | EmptyString => found
  | String x p' => rfind_from c p' (i + 1) (if Ascii.eqb x c then i else found)
  end.

Definition rfind (c : ascii) (p : string) : Z := rfind_from c p 0 (-1).

(** [os.path.splitext(p)[1]]: from the last dot of the last component,
    unless that component has only dots before it. *)
Definition splitext_ext (p : string) : string :=
  let sepIndex := rfind "/" p in
  let dotIndex := rfind "." p in
  if sepIndex <? dotIndex then
    let stem := String.substring (Z.to_nat (sepIndex + 1))
                  (Z.to_nat (dotIndex - sepIndex - 1)) p in
    if existsb (fun ch => negb (Ascii.eqb ch ".")) (list_ascii_of_string stem)
    then String.substring (Z.to_nat dotIndex)
           (String.length p - Z.to_nat dotIndex) p
    else ""
  else "".

(** ** File objects read with [read] and [seek] *)

(** [fobj.read(n)]: at most [n] bytes, all that is left for a negative [n]. *)
Definition fobj_read (n : Z) : M (list byte) :=
  fun s =>
    let bs := rest s in
    if n <? 0 then (Ok bs, advance (length bs) s)
    else
      let k := Nat.min (Z.to_nat n) (length bs) in
      (Ok (take k bs), advance k s).

(** [fobj.seek(n)]. *)
Definition fobj_seek (n : nat) : M unit :=
  fun s => (Ok tt, {| content := content s; pos := n; closed := closed s |}).

(** [try: body finally: fobj.close()]. *)
Definition try_finally_close {A} (body : M A) : M A :=
  fun s => let '(r, s') := body s in (r, close s').

Definition itemsize (dt : dtype) : nat :=
  match dt with
  | i1 => 1 | i2 => 2 | i4 => 4 | i8 => 8 | f4 => 4 | f8 => 8
  end.

(** [np.fromstring(data, dt)] for the big-endian type codes of this
    module. *)
Definition np_fromstring (data : list byte) (dt : dtype) : result ndarray :=
  let size := itemsize dt in
  if (length data mod size =? 0)%nat then
    let raw := items size (length data / size) data in
    match dt with
    | f4 => Ok (FloatArray dt (map be_f4 raw))
    | f8 => Raise TypeError          (* not one of the type codes used *)
    | _ => Ok (IntArray dt (map be_int raw))
    end
  else Raise (ValueError "string size must be a multiple of element size").

(** [np.fromstring(fobj.read(4), ">i4")[0]]. *)
Definition read_i4_0 : M Z :=
  let* b := fobj_read 4 in
  let* a := lift (np_fromstring b i4) in
  match a with
  | IntArray _ l => lift (item0 l)
  | FloatArray _ _ => raise TypeError
  end.

(** Product of two [np.int32] scalars. *)
Definition int32_mul (x y : Z) : Z := wrap 32 (x * y).

(** ** [load_scalar_data] *)

(** The dictionary of FreeSurfer data type codes, indexed. *)
Definition datatype_table (datatype : Z) : result (Z * dtype) :=
  match datatype with
  | 0 => Ok (1, i1)
  | 1 => Ok (4, i4)
  | 3 => Ok (4, f4)
  | 4 => Ok (2, i2)
  | _ => Raise KeyError
  end.

(** The body of the [try] block: its last statement binds the local
    [scalar_data], which is the value here. *)
Definition load_scalar_data_try : M ndarray :=
  let* v := read_i4_0 in
  if negb (v =? 1) then
    raise (NotImplementedError "Scalar data file version not supported")
  else
    let* ndim1 := read_i4_0 in
    let* ndim2 := read_i4_0 in
    let* ndim3 := read_i4_0 in
    let* nframes := read_i4_0 in
    let* datatype := read_i4_0 in
    let* dt := lift (datatype_table datatype) in
    let databytes := fst dt in
    let typecode := snd dt in
    let* _ := fobj_seek 284 in
    let nbytes :=
      int32_mul (int32_mul (int32_mul ndim1 ndim2) ndim3) nframes * databytes in
    let* data := fobj_read nbytes in
    lift (np_fromstring data typecode).

Section External.

(** [nib.load(filepath).get_data().ravel(order="F")], of nibabel. *)
Variable nib_load_ravel : filesystem -> string -> result ndarray.

(** What [gzip.open(filepath, "rb")] reads: the decompressed bytes, or
    the exception of the first read. *)
Variable gunzip : list byte -> result (list byte).

(** [np.loadtxt(filepath, dtype=np.int, skiprows=2, usecols=[0])] on
    the bytes of the file. *)
Variable np_loadtxt : list byte -> result (list Z).

(** From [fobj = openfile(filepath, "rb")] to the end of the function:
    the value returned and the file object as it is left, if one was
    made.  Nothing is returned after the [try] statement, so a call
    that does not raise yields [None]. *)
Definition load_scalar_data_fallback (fs : filesystem) (filepath : string)
    (gz : bool) : result (option ndarray) * option stream :=
  match fs !! filepath with
  | None => (Raise IOError, None)
  | Some bytes =>
      match (if gz then gunzip bytes else Ok bytes) with
      | Raise e => (Raise e, Some (close (open_stream bytes)))
      | Ok bs =>
          let '(r, fobj) := try_finally_close load_scalar_data_try (open_stream bs) in
          match r with
          | Ok scalar_data => (Ok None, Some fobj)
          | Raise e => (Raise e, Some fobj)
          end
      end
  end.

Definition load_scalar_data (fs : filesystem) (filepath : string)
  : result (option ndarray) * option stream :=
  match nib_load_ravel fs filepath with
  | Ok scalar_data => (Ok (Some scalar_data), None)
  | Raise ImageFileError =>
      let ext := splitext_ext filepath in
      if String.eqb ext ".mgz" then load_scalar_data_fallback fs filepath true
      else if String.eqb ext ".mgh" then load_scalar_data_fallback fs filepath false
      else (Raise (ValueError
              "Scalar file format must be readable by Nibabl or .mg{hz} format"),
            None)
  | Raise e => (Raise e, None)
  end.

(** ** [read_label] *)

Definition read_label (fs : filesystem) (filepath : string) : result (list Z) :=
  match fs !! filepath with
  | None => Raise IOError
  | Some bytes => np_loadtxt bytes
  end.

(** ** Two-dimensional array operations *)

(** [a[:, j]]. *)
Definition column {A} (a : array2 A) (j : nat) : result (list A) :=
  if (j <? ncols a)%nat then Ok (omap (fun r => r !! j) (rows a))
  else Raise IndexError.

(** [a.T]. *)
Definition transpose {A} (a : array2 A) : array2 A :=
  mkArray2 (nrows a)
    (map (fun j => omap (fun r => r !! j) (rows a)) (seq 0 (ncols a))).

(** [np.c_[a, v]] for a two-dimensional [a] and a vector [v] with one
    element per row of [a]. *)
Definition np_c_ {A} (a : array2 A) (v : list A) : result (array2 A) :=
  if (length v =? nrows a)%nat
  then Ok (mkArray2 (S (ncols a)) (zip_with (fun r x => r ++ [x]) (rows a) v))
  else Raise (ValueError "array dimensions must agree")%string.

(** The inner product as [np.dot] accumulates it: from [0.0], one
    product after the other. *)
Definition inner (u v : list float) : float :=
  fold_left (fun acc ab => (acc + fst ab * snd ab)%float) (zip u v) 0%float.

(** [np.dot(a, b)] of two-dimensional arrays. *)
Definition np_dot (a b : array2 float) : result (array2 float) :=
  if (ncols a =? nrows b)%nat
  then Ok (mkArray2 (ncols b)
             (map (fun r => map (fun c => inner r c) (rows (transpose b)))
                  (rows a)))
  else Raise (ValueError "matrices are not aligned")%string.

(** [a[:, :k]]. *)
Definition take_columns {A} (k : nat) (a : array2 A) : array2 A :=
  mkArray2 (Nat.min k (ncols a)) (map (take k) (rows a)).

(** [np.ones(n)]. *)
Definition np_ones (n : nat) : list float := replicate n 1%float.

(** [np.zeros(n, np.int)]. *)
Definition np_zeros (n : nat) : list Z := replicate n 0.

(** [a[idx] = 1] for an integer array [idx]: an index counts from the
    end when negative, and must be in range. *)
Fixpoint put_ones (a : list Z) (idx : list Z) : result (list Z) :=
  match idx with
  | [] => Ok a
  | i :: idx' =>
      let n := Z.of_nat (length a) in
      if (- n <=? i) && (i <? n)
      then put_ones (<[Z.to_nat (i mod n) := 1]> a) idx'
      else Raise IndexError
  end.

(** [np.array(a > 0, np.int)]. *)
Definition positive_mask (a : ndarray) : list Z :=
  match a with
  | IntArray _ l => map (fun v => if 0 <? v then 1 else 0) l
  | FloatArray _ l => map (fun v => if (0 <? v)%float then 1 else 0) l
  end.

(** ** The [Surface] class *)

(** An attribute that was never assigned is [None]. *)
Record Surface : Type := mkSurface {
  subject_id : string;
  hemi : string;
  surf : string;
  data_path : string;
  coords : option (array2 float);
  faces : option (array2 Z);
  curv : option ndarray;
  bin_curv : option (list Z);
  labels : option (gmap string (list Z))
}.

(** Reading an attribute. *)
Definition getattr {A} (attr : string) (v : option A) : result A :=
  match v with
  | Some a => Ok a
  | None => Raise (AttributeError attr)
  end.

(** [Surface.__init__], with [os.environ] as an argument. *)
Definition __init__ (environ : gmap string string)
    (subject_id hemi surf : string) : result Surface :=
  match environ !! "SUBJECTS_DIR"%string with
  | None =>
      Raise (ValueError
        "Test suite relies on the definition of the SUBJECTS_DIR environment variable")
  | Some subj_dir =>
      Ok {| subject_id := subject_id; hemi := hemi; surf := surf;
            data_path := pjoin subj_dir [subject_id];
            coords := None; faces := None; curv := None; bin_curv := None;
            labels := None |}
  end.

(** The local [surf_path] of [load_geometry]. *)
Definition surf_path (self : Surface) : string :=
  pjoin (data_path self) ["surf"; hemi self +:+ "." +:+ surf self]%string.

Definition load_geometry (fs : filesystem) (self : Surface) : result Surface :=
  let+ cf := read_geometry fs (surf_path self) in
  Ok {| subject_id := subject_id self; hemi := hemi self; surf := surf self;
        data_path := data_path self;
        coords := Some (fst cf); faces := Some (snd cf);
        curv := curv self; bin_curv := bin_curv self; labels := labels self |}.

Definition x (self : Surface) : result (list float) :=
  let+ c := getattr "coords" (coords self) in column c 0.

Definition y (self : Surface) : result (list float) :=
  let+ c := getattr "coords" (coords self) in column c 1.

Definition z (self : Surface) : result (list float) :=
  let+ c := getattr "coords" (coords self) in column c 2.

(** The local [curv_path] of [load_curvature]. *)
Definition curv_path (self : Surface) : string :=
  pjoin (data_path self) ["surf"; hemi self +:+ ".curv"]%string.

Definition load_curvature (fs : filesystem) (self : Surface) : result Surface :=
  let+ c := read_curvature fs (curv_path self) in
  Ok {| subject_id := subject_id self; hemi := hemi self; surf := surf self;
        data_path := data_path self;
        coords := coords self; faces := faces self;
        curv := Some c; bin_curv := Some (positive_mask c);
        labels := labels self |}.

(** The path of the label file of [load_label]. *)
Definition label_path (self : Surface) (name : string) : string :=
  pjoin (data_path self)
    ["label"; hemi self +:+ "." +:+ name +:+ ".label"]%string.

(** The first label of an object goes to [dict(name=label_array)]: a
    dictionary with the one key ["name"]. *)
Definition load_label (fs : filesystem) (self : Surface) (name : string)
  : result Surface :=
  let+ label := read_label fs (label_path self name) in
  let+ xs := x self in
  let label_array := np_zeros (length xs) in
  let+ label_array := put_ones label_array label in
  let labels' :=
    match labels self with
    | Some d => <[name := label_array]> d
    | None => {["name"%string := label_array]}
    end in
  Ok {| subject_id := subject_id self; hemi := hemi self; surf := surf self;
        data_path := data_path self;
        coords := coords self; faces := faces self;
        curv := curv self; bin_curv := bin_curv self;
        labels := Some labels' |}.

Definition apply_xfm (self : Surface) (mtx : array2 float) : result Surface :=
  let+ c := getattr "coords" (coords self) in
  let+ h := np_c_ c (np_ones (nrows c)) in
  let+ d := np_dot h (transpose mtx) in
  Ok {| subject_id := subject_id self; hemi := hemi self; surf := surf self;
        data_path := data_path self;
        coords := Some (take_columns 3 d); faces := faces self;
        curv := curv self; bin_curv := bin_curv self; labels := labels self |}.

(** The transformation of one vertex in the words of the
    specification: the homogeneous coordinates [r | 1] right-multiplied
    by the transpose of the matrix, that is their inner products with
    the rows of the matrix, of which the first three are kept. *)
Definition xfm_spec (mtx : array2 float) (r : list float) : list float :=
  take 3 (map (inner (r ++ [1%float])) (rows mtx)).

(** ** Sequences of calls *)

Inductive call : Type :=
| LoadGeometry
| LoadCurvature
| LoadLabel (name : string)
| ApplyXfm (mtx : array2 float).

Definition do_call (fs : filesystem) (self : Surface) (c : call)
  : result Surface :=
  match c with
  | LoadGeometry => load_geometry fs self
  | LoadCurvature => load_curvature fs self
  | LoadLabel name => load_label fs self name
  | ApplyXfm mtx => apply_xfm self mtx
  end.

(** The object after a call: every method assigns its attributes after
    the last statement that can raise, so a call that raises leaves the
    object as it was. *)
Definition after (fs : filesystem) (self : Surface) (c : call) : Surface :=
  match do_call fs self c with
  | Ok self' => self'
  | Raise _ => self
  end.

Definition after_all (fs : filesystem) (self : Surface) (cs : list call)
  : Surface :=
  fold_left (after fs) cs self.


End External.

(** ** Writing test files *)

Definition byte_of_Z (z : Z) : byte :=
  match Byte.of_N (Z.to_N (z mod 256)) with
  | Some b => b
  | None => "000"%byte
  end.

(** The [n] bytes of [z], most significant first (two's complement). *)
Fixpoint enc_be (n : nat) (z : Z) : list byte :=
  match n with
  | O => []
  | S n' => enc_be n' (z / 256) ++ [byte_of_Z z]
  end.

Definition enc_i4 (z : Z) : list byte := enc_be 4 z.
Definition enc_i2 (z : Z) : list byte := enc_be 2 z.
Definition enc_u3 (z : Z) : list byte := enc_be 3 z.

Definition int32 (z : Z) : Prop := - 2 ^ 31 <= z < 2 ^ 31.

(** The part of an annotation file before the colour table: the number
    of vertices and the (vertex, value) pairs. *)
Definition annot_head (vnum : Z) (data : list Z) : list byte :=
  enc_i4 vnum ++ concat (map enc_i4 data).

Definition annot_head_ok (vnum : Z) (data : list Z) : Prop :=
  0 <= vnum /\ int32 vnum /\ Z.of_nat (length data) = 2 * vnum /\
  Forall int32 data.

(** An entry of the colour table of an annotation file. *)
Record ctab_entry : Type := mkEntry {
  e_structure : Z;
  e_name : list byte;
  e_R : Z;
  e_G : Z;
  e_B : Z;
  e_A : Z
}.

Definition enc_entry (e : ctab_entry) : list byte :=
  enc_i4 (e_structure e) ++ enc_i4 (Z.of_nat (length (e_name e))) ++ e_name e
  ++ concat (map enc_i4 [e_R e; e_G e; e_B e; e_A e]).

Definition entry_ok (e : ctab_entry) : Prop :=
  int32 (e_structure e) /\ e_name e <> [] /\
  int32 (Z.of_nat (length (e_name e))) /\
  Forall int32 [e_R e; e_G e; e_B e; e_A e].

(** The packed identifier of a colour, in the words of the
    specification: R + G·2^8 + B·2^16 + A·2^24. *)
Definition packed_id (r g b a : Z) : Z := r + g * 2 ^ 8 + b * 2 ^ 16 + a * 2 ^ 24.

Definition entry_row (e : ctab_entry) : list Z :=
  [e_R e; e_G e; e_B e; e_A e; packed_id (e_R e) (e_G e) (e_B e) (e_A e)].

(** A colour table of version -2, from the version field on. *)
Definition ctab_v2 (n_entries : Z) (path : list byte)
    (entries : list ctab_entry) : list byte :=
  enc_i4 (-2) ++ enc_i4 n_entries ++ enc_i4 (Z.of_nat (length path)) ++ path
  ++ enc_i4 (Z.of_nat (length entries)) ++ concat (map enc_entry entries).

(** ** Sample files *)

Definition quad_file : list byte := ["255"; "255"; "255"; "000"]%byte.

(** An annotation file of two vertices with a colour table that declares
    three entries and stores two. *)
Definition annot_sample : list byte :=
  annot_head 2 [0; 77; 1; 88] ++ enc_i4 1
  ++ ctab_v2 3 ["A"; "000"]%byte
       [mkEntry 0 ["000"]%byte 10 20 30 0;
        mkEntry 5 ["B"; "000"]%byte 255 255 255 255].

Definition int16 (z : Z) : Prop := - 2 ^ 15 <= z < 2 ^ 15.

(** An old-format curvature file: the number of values as 3-byte magic
    number, a 3-byte field that is skipped, the values. *)
Definition curv_old (magic skip : Z) (vals : list Z) : list byte :=
  enc_u3 magic ++ enc_u3 skip ++ concat (map enc_i2 vals).

Definition curv_old_sample : list byte :=
  curv_old 5 0 [100; -50; 0; 200; 1].

(** A volume file of version 1 with one voxel of type 0 (one byte),
    the value 7 at offset 284. *)
Definition mgh_sample : list byte :=
  concat (map enc_i4 [1; 1; 1; 1; 1; 0]) ++ replicate 260 "000"%byte
  ++ ["007"%byte].

(** An image library that recognises no file. *)
Definition nib_fails (fs : filesystem) (filepath : string) : result ndarray :=
  Raise ImageFileError.

Definition gunzip_id (bs : list byte) : result (list byte) := Ok bs.

(** A triangular surface file with five vertices and no face.  The
    coordinates are written by their [float32] bit patterns: 1.0, 2.0,
    0.5 and -1.0 among zeros. *)
Definition geom_sample : list byte :=
  ["255"; "255"; "254"; "010"; "010"]%byte ++ enc_i4 5 ++ enc_i4 0
  ++ concat (map enc_i4
       [1065353216; 0; 0;   0; 1073741824; 0;   0; 0; 1056964608;
        -1082130432; 0; 0;  0; 0; 0]).

(** A text decoder for a label file that lists the vertices 0 and 3. *)
Definition loadtxt_0_3 (bytes : list byte) : result (list Z) := Ok [0; 3].

Definition environ_sample : gmap string string :=
  {["SUBJECTS_DIR"%string := "/data"%string]}.

Definition fs_sample : filesystem :=
  {["/data/bert/surf/lh.inflated"%string := geom_sample;
    "/data/bert/surf/lh.curv"%string := curv_old_sample;
    "/data/bert/label/lh.cortex.label"%string := []]}.

Definition eye4 : array2 float :=
  mkArray2 4 [[1; 0; 0; 0]; [0; 1; 0; 0]; [0; 0; 1; 0]; [0; 0; 0; 1]]%float.

(** An object with the geometry of two vertices loaded, and a curvature,
    and one label. *)
Definition bert_sample : Surface :=
  {| subject_id := "bert"; hemi := "lh"; surf := "inflated";
     data_path := "/data/bert";
     coords := Some (mkArray2 3 [[1; 2; 3]; [-4; 0.5; 0]]%float);
     faces := Some (mkArray2 3 [[0; 1; 1]]);
     curv := Some (IntArray i2 [1; -1]);
     bin_curv := Some [1; 0];
     labels := Some {["cortex"%string := [1; 0]]} |}.

(** The object that the constructor makes for subject "bert" under
    [environ_sample]: nothing is loaded. *)
Definition bert_fresh : Surface :=
  {| subject_id := "bert"; hemi := "lh"; surf := "inflated";
     data_path := "/data/bert";
     coords := None; faces := None; curv := None; bin_curv := None;
     labels := None |}.

(** An object whose only vertex has an infinite x coordinate, and one
    whose only vertex has a negative zero as x coordinate. *)
Definition bert_infinite : Surface :=
  {| subject_id := "bert"; hemi := "lh"; surf := "inflated";
     data_path := "/data/bert";
     coords := Some (mkArray2 3 [[infinity; 0; 0]]%float);
     faces := Some (mkArray2 3 []);
     curv := None; bin_curv := None; labels := None |}.

Definition bert_neg_zero : Surface :=
  {| subject_id := "bert"; hemi := "lh"; surf := "inflated";
     data_path := "/data/bert";
     coords := Some (mkArray2 3 [[neg_zero; 1; 2]]%float);
     faces := Some (mkArray2 3 []);
     curv := None; bin_curv := None; labels := None |}.

(** ** Floating-point values *)

(** The number 1.0 as a specification float. *)
Definition sf_one : spec_float := S754_finite false 4503599627370496 (-52).

(** Neither an infinity nor a NaN. *)
Definition sf_fin (a : spec_float) : bool :=
  match a with
  | S754_zero _ | S754_finite _ _ _ => true
  | _ => false
  end.

(** The same finite value: the same sign, mantissa and exponent, or two
    zeros of any sign. *)
Definition sf_same (a b : spec_float) : Prop :=
  match a, b with
  | S754_zero _, S754_zero _ => True
  | S754_finite s m e, S754_finite s' m' e' => s = s' /\ m = m' /\ e = e'
  | _, _ => False
  end.

(** ** More file writers *)

Definition newline : byte := "010"%byte.

Definition uint32 (u : Z) : Prop := 0 <= u < 2 ^ 32.

(** A triangular surface file: the magic number, two text lines, the
    two counts, the vertex rows as [float32] bit patterns, the face
    rows. *)
Definition geom_file (stamp comment : list byte)
    (vertices faces : list (list Z)) : list byte :=
  ["255"; "255"; "254"]%byte ++ stamp ++ [newline] ++ comment ++ [newline]
  ++ enc_i4 (Z.of_nat (length vertices)) ++ enc_i4 (Z.of_nat (length faces))
  ++ concat (map (enc_be 4) (concat vertices))
  ++ concat (map enc_i4 (concat faces)).

(** The part of a surface file before the vertex data, with the counts
    it declares. *)
Definition geom_head (stamp comment : list byte) (vnum fnum : Z) : list byte :=
  ["255"; "255"; "254"]%byte ++ stamp ++ [newline] ++ comment ++ [newline]
  ++ enc_i4 vnum ++ enc_i4 fnum.

(** A new-format curvature file: the magic number 16777215, three
    32-bit fields of which the first is the number of values, the
    values as [float32] bit patterns. *)
Definition curv_new (vnum fnum vals_per_vertex : Z) (bits : list Z)
  : list byte :=
  ["255"; "255"; "255"]%byte ++ enc_i4 vnum ++ enc_i4 fnum
  ++ enc_i4 vals_per_vertex ++ concat (map (enc_be 4) bits).


(** ** [load_scalar_data] *)

(** The contents that the fallback path reads for a path: the file
    itself for the extension [.mgh], what [gzip] makes of it for
    [.mgz]. *)
Definition fallback_reads (gunzip : list byte -> result (list byte))
    (fs : filesystem) (filepath : string) (content : list byte) : Prop :=
  exists raw, fs !! filepath = Some raw
    /\ ((splitext_ext filepath = ".mgh"%string /\ raw = content)
        \/ (splitext_ext filepath = ".mgz"%string /\ gunzip raw = Ok content)).


(** * Properties *)

(** ** Big-endian encoding and decoding *)

Lemma byte_val_range b : 0 <= byte_val b < 256.
Proof.
  unfold byte_val. pose proof (Byte.to_N_bounded b) as H.
  split; [apply N2Z.is_nonneg|].
  lia.
Qed.

Lemma byte_val_of_Z z : byte_val (byte_of_Z z) = z mod 256.
Proof.
  unfold byte_of_Z, byte_val.
  assert (Hr : 0 <= z mod 256 < 256) by (apply Z.mod_pos_bound; lia).
  destruct (Byte.of_N (Z.to_N (z mod 256))) as [b|] eqn:E.
  - apply Byte.to_of_N in E. rewrite E. rewrite Z2N.id; lia.
  - apply Byte.of_N_None_iff in E. lia.
Qed.

Lemma be_uint_snoc bs b : be_uint (bs ++ [b]) = be_uint bs * 256 + byte_val b.
Proof. unfold be_uint. rewrite fold_left_app. reflexivity. Qed.

Lemma length_enc_be n z : length (enc_be n z) = n.
Proof.
  revert z. induction n as [|n IH]; intros z; simpl; [reflexivity|].
  rewrite length_app, IH. simpl. lia.
Qed.

Lemma be_uint_enc_be n z : be_uint (enc_be n z) = z mod 256 ^ Z.of_nat n.
Proof.
  revert z. induction n as [|n IH]; intros z.
  - simpl. rewrite Z.mod_1_r. reflexivity.
  - cbn [enc_be]. rewrite be_uint_snoc, IH, byte_val_of_Z.
    rewrite Nat2Z.inj_succ, Z.pow_succ_r by lia.
    assert (Hp : 0 < 256 ^ Z.of_nat n) by (apply Z.pow_pos_nonneg; lia).
    rewrite Z.rem_mul_r by lia. lia.
Qed.

Lemma signed_mod_int32 z : int32 z -> signed 32 (z mod 2 ^ 32) = z.
Proof.
  unfold int32, signed. intros H.
  change (2 ^ (32 - 1)) with (2 ^ 31).
  destruct (Z.ltb_spec (z mod 2 ^ 32) (2 ^ 31)) as [Hlt|Hge].
  - destruct (Z.neg_nonneg_cases z) as [Hneg|Hpos].
    + exfalso.
      assert (E : z mod 2 ^ 32 = z + 2 ^ 32).
      { symmetry. apply (Z.mod_unique _ _ (-1)); lia. }
      lia.
    + apply Z.mod_small. lia.
  - destruct (Z.neg_nonneg_cases z) as [Hneg|Hpos].
    + assert (E : z mod 2 ^ 32 = z + 2 ^ 32).
      { symmetry. apply (Z.mod_unique _ _ (-1)); lia. }
      lia.
    + rewrite Z.mod_small in Hge by lia. lia.
Qed.

Lemma be_int_enc_i4 z : int32 z -> be_int (enc_i4 z) = z.
Proof.
  intros H. unfold be_int, enc_i4.
  rewrite length_enc_be, be_uint_enc_be.
  change (8 * Z.of_nat 4) with 32. change (256 ^ Z.of_nat 4) with (2 ^ 32).
  apply signed_mod_int32, H.
Qed.

(** ** Reading what was written *)

Lemma rest_advance s n : rest (advance n s) = drop n (rest s).
Proof. unfold rest, advance. simpl. rewrite drop_drop. reflexivity. Qed.

Lemma rest_open_stream bs : rest (open_stream bs) = bs.
Proof. reflexivity. Qed.

Lemma items_concat {A} (size : nat) (chunks : list (list A)) tl :
  Forall (fun c => length c = size) chunks ->
  items size (length chunks) (concat chunks ++ tl) = chunks.
Proof.
  induction 1 as [|c chunks Hc _ IH]; [reflexivity|].
  cbn [length concat items]. rewrite <- app_assoc.
  assert (Hle : (size <=? length (c ++ concat chunks ++ tl))%nat = true).
  { apply Nat.leb_le. rewrite length_app. lia. }
  rewrite Hle. subst size.
  rewrite take_app_length, drop_app_length, IH. reflexivity.
Qed.

Lemma length_concat_uniform {A} (size : nat) (chunks : list (list A)) :
  Forall (fun c => length c = size) chunks ->
  length (concat chunks) = (length chunks * size)%nat.
Proof.
  induction 1 as [|c chunks Hc _ IH]; [reflexivity|].
  cbn [concat length]. rewrite length_app, IH. lia.
Qed.

(** Reading [count] items where the file holds them: they are returned
    and the position is after them. *)
Lemma np_fromfile_concat size chunks tl s :
  size <> O ->
  Forall (fun c => length c = size) chunks ->
  rest s = concat chunks ++ tl ->
  exists s', np_fromfile size (Z.of_nat (length chunks)) s = (Ok chunks, s')
             /\ rest s' = tl.
Proof.
  intros Hsize Hall Hrest. unfold np_fromfile.
  destruct size as [|size']; [congruence|].
  destruct (Z.ltb_spec (Z.of_nat (length chunks)) 0) as [Hneg|_]; [lia|].
  rewrite Nat2Z.id, Hrest, items_concat by assumption.
  eexists. split; [reflexivity|].
  rewrite rest_advance, Hrest, length_app.
  rewrite (length_concat_uniform (S size')) by assumption.
  rewrite Nat.min_l by lia.
  rewrite <- (length_concat_uniform (S size')) by assumption.
  apply drop_app_length.
Qed.

Lemma fromfile_i4_enc vals tl s :
  Forall int32 vals ->
  rest s = concat (map enc_i4 vals) ++ tl ->
  exists s', fromfile_i4 (Z.of_nat (length vals)) s = (Ok vals, s')
             /\ rest s' = tl.
Proof.
  intros Hv Hrest. unfold fromfile_i4, bind.
  destruct (np_fromfile_concat 4 (map enc_i4 vals) tl s) as (s' & E & Hs').
  - discriminate.
  - apply Forall_map, Forall_forall. intros v _. apply length_enc_be.
  - exact Hrest.
  - rewrite length_map in E. rewrite E. exists s'. split; [|exact Hs'].
    unfold ret. f_equal. f_equal. rewrite map_map.
    rewrite <- (map_id vals) at 2. apply map_ext_Forall.
    eapply Forall_impl; [exact Hv|]. intros v Hi. apply be_int_enc_i4, Hi.
Qed.

Lemma fromfile_i4_0_enc v tl s :
  int32 v ->
  rest s = enc_i4 v ++ tl ->
  exists s', fromfile_i4_0 s = (Ok v, s') /\ rest s' = tl.
Proof.
  intros Hv Hrest. unfold fromfile_i4_0, bind.
  destruct (fromfile_i4_enc [v] tl s) as (s' & E & Hs').
  - constructor; [exact Hv|constructor].
  - cbn [map concat]. rewrite app_nil_r. exact Hrest.
  - change (Z.of_nat (length [v])) with 1 in E. rewrite E.
    exists s'. split; [reflexivity|exact Hs'].
Qed.

Lemma fromfile_S_0_bytes bs tl s :
  bs <> [] ->
  rest s = bs ++ tl ->
  exists s', fromfile_S_0 (Z.of_nat (length bs)) s = (Ok bs, s')
             /\ rest s' = tl.
Proof.
  intros Hne Hrest. unfold fromfile_S_0.
  destruct (Z.ltb_spec (Z.of_nat (length bs)) 0) as [Hneg|_]; [lia|].
  unfold bind. rewrite Nat2Z.id.
  destruct (np_fromfile_concat (length bs) [bs] tl s) as (s' & E & Hs').
  - destruct bs; [congruence|discriminate].
  - constructor; [reflexivity|constructor].
  - cbn [map concat]. rewrite app_nil_r. exact Hrest.
  - change (Z.of_nat (length [bs])) with 1 in E. rewrite E.
    exists s'. split; [reflexivity|exact Hs'].
Qed.

(** ** The geometry decoder *)

Lemma fread3_cons b1 b2 b3 tl s :
  rest s = b1 :: b2 :: b3 :: tl ->
  _fread3 s =
    (Ok (byte_val b1 * 65536 + byte_val b2 * 256 + byte_val b3), advance 3 s).
Proof.
  intros H. unfold _fread3, fromfile_u1, bind, np_fromfile, ret.
  rewrite H. cbn. f_equal. f_equal.
  rewrite !Z.shiftl_mul_pow2 by lia. unfold be_uint.
  simpl firstn. simpl skipn. simpl fold_left. lia.
Qed.

(** C5.  A file whose first three bytes give the magic number 16777215
    makes the geometry decoder fail with [NotImplementedError] (the
    UnsupportedFormatError of the specification); any magic number other
    than 16777215 and 16777214 makes it fail with [ValueError] (the
    InvalidFormatError); in both cases the outcome is the exception and
    no data.  Only magic 16777214 can reach a decoded result. *)
Theorem read_geometry_magic (fs : filesystem) filepath b1 b2 b3 tl :
  fs !! filepath = Some (b1 :: b2 :: b3 :: tl) ->
  let magic := byte_val b1 * 65536 + byte_val b2 * 256 + byte_val b3 in
  (magic = 16777215 ->
   read_geometry fs filepath =
     Raise (NotImplementedError
              "Quadrangle surface format reading not implemented")
   /\ Taxonomy.UnsupportedFormatError
        (NotImplementedError
           "Quadrangle surface format reading not implemented") = true) /\
  (magic <> 16777215 -> magic <> 16777214 ->
   read_geometry fs filepath =
     Raise (ValueError "File does not appear to be a Freesurfer surface")
   /\ Taxonomy.InvalidFormatError
        (ValueError "File does not appear to be a Freesurfer surface") = true) /\
  (forall r, read_geometry fs filepath = Ok r -> magic = 16777214).
Proof.
  intros Hfs magic.
  remember (read_geometry fs filepath) as res eqn:E.
  unfold read_geometry, with_open in E. rewrite Hfs in E.
  unfold bind at 1 in E.
  rewrite (fread3_cons b1 b2 b3 tl) in E by reflexivity.
  fold magic in E.
  destruct (Z.eqb_spec magic 16777215) as [Hq|Hq].
  - subst res; cbn. repeat split; congruence.
  - destruct (Z.eqb_spec magic 16777214) as [Ht|Ht]; cbn [negb] in E.
    + repeat split; congruence.
    + subst res; cbn. repeat split; congruence.
Qed.

Lemma read_geometry_magic_witness :
  read_geometry {["lh.quad"%string := quad_file]} "lh.quad" =
    Raise (NotImplementedError
             "Quadrangle surface format reading not implemented").
Proof.
  apply (read_geometry_magic {["lh.quad"%string := quad_file]} "lh.quad"
           "255"%byte "255"%byte "255"%byte ["000"%byte]).
  - reflexivity.
  - reflexivity.
Defined.

(** ** The annotation decoder *)

Lemma bind_ok {A B} (m : M A) (k : A -> M B) s a s' :
  m s = (Ok a, s') -> bind m k s = k a s'.
Proof. intros E. unfold bind. rewrite E. reflexivity. Qed.

Lemma bind_inv {A B} (m : M A) (k : A -> M B) s b s2 :
  bind m k s = (Ok b, s2) ->
  exists a s1, m s = (Ok a, s1) /\ k a s1 = (Ok b, s2).
Proof.
  unfold bind. destruct (m s) as [[a|e] s1]; intros H; [|discriminate H].
  exists a, s1. split; [reflexivity|exact H].
Qed.

Lemma reshape_ok {A} (a : list A) (r : Z) (cols : nat) :
  0 <= r -> length a = (Z.to_nat r * cols)%nat ->
  reshape a r cols = Ok (mkArray2 cols (items cols (Z.to_nat r) a)).
Proof.
  intros Hr Hlen. unfold reshape.
  destruct (Z.ltb_spec r 0) as [Hneg|_]; [lia|].
  rewrite Hlen, Nat.eqb_refl. reflexivity.
Qed.

(** Stepping over the head of an annotation file. *)
Lemma read_annot_head {A} (k : array2 Z -> M A) vnum data tl s :
  annot_head_ok vnum data ->
  rest s = annot_head vnum data ++ tl ->
  exists s',
    rest s' = tl /\
    (let* vnum := fromfile_i4_0 in
     let* d := fromfile_i4 (vnum * 2) in
     let* data := lift (reshape d vnum 2) in
     k data) s = k (mkArray2 2 (items 2 (Z.to_nat vnum) data)) s'.
Proof.
  intros (Hv0 & Hv & Hlen & Hdata) Hrest.
  unfold annot_head in Hrest. rewrite <- app_assoc in Hrest.
  destruct (fromfile_i4_0_enc vnum _ s Hv Hrest) as (s1 & E1 & R1).
  destruct (fromfile_i4_enc data tl s1 Hdata R1) as (s2 & E2 & R2).
  exists s2. split; [exact R2|].
  rewrite (bind_ok _ _ _ _ _ E1).
  replace (vnum * 2) with (Z.of_nat (length data)) by lia.
  rewrite (bind_ok _ _ _ _ _ E2).
  unfold bind at 1, lift. rewrite reshape_ok by lia. reflexivity.
Qed.

(** C6.  An annotation file whose [ctab_exists] flag is zero, or whose
    [ctab_version] is not -2, is decoded without an exception, and the
    result is [None], the "no table" result. *)
Theorem read_annot_no_table (fs : filesystem) filepath vnum data
    ctab_exists tl :
  annot_head_ok vnum data ->
  int32 ctab_exists ->
  fs !! filepath = Some (annot_head vnum data ++ enc_i4 ctab_exists ++ tl) ->
  (ctab_exists = 0 -> read_annot fs filepath = Ok None) /\
  (forall ctab_version tl',
     ctab_exists <> 0 -> int32 ctab_version -> ctab_version <> -2 ->
     tl = enc_i4 ctab_version ++ tl' ->
     read_annot fs filepath = Ok None).
Proof.
  intros Hhead Hflag Hfs.
  assert (E : forall r,
    (forall s, rest s = tl ->
       fst ((if ctab_exists =? 0 then ret None
             else
               let* ctab_version := fromfile_i4_0 in
               if negb (ctab_version =? -2) then ret None
               else
                 let* n_entries := fromfile_i4_0 in
                 let* ctab := lift (np_zeros2 n_entries 5) in
                 let* length := fromfile_i4_0 in
                 let* _ := fromfile_S_0 length in
                 let* entries_to_read := fromfile_i4_0 in
                 let* ctab := for_each (xrange entries_to_read)
                                read_annot_entry ctab in
                 ret (Some ctab)) s) = r) ->
    read_annot fs filepath = r).
  { intros r Hk. unfold read_annot, with_open. rewrite Hfs.
    edestruct (read_annot_head (A := option (array2 Z))) as (s1 & R1 & E1);
      [exact Hhead | apply rest_open_stream | ].
    rewrite E1.
    destruct (fromfile_i4_0_enc ctab_exists tl s1 Hflag R1) as (s2 & E2 & R2).
    rewrite (bind_ok _ _ _ _ _ E2). apply Hk, R2. }
  split.
  - intros ->. apply E. intros s _. reflexivity.
  - intros ctab_version tl' Hne Hver Hnot ->. apply E. intros s Hs.
    destruct (Z.eqb_spec ctab_exists 0) as [|_]; [congruence|].
    destruct (fromfile_i4_0_enc ctab_version tl' s Hver Hs) as (s3 & E3 & R3).
    rewrite (bind_ok _ _ _ _ _ E3).
    destruct (Z.eqb_spec ctab_version (-2)) as [|_]; [congruence|].
    reflexivity.
Qed.

Lemma wrap_small w z :
  0 < w -> - 2 ^ (w - 1) <= z < 2 ^ (w - 1) -> wrap w z = z.
Proof.
  intros Hw H. unfold wrap, signed.
  assert (Hp : 2 ^ w = 2 * 2 ^ (w - 1)).
  { rewrite <- Z.pow_succ_r by lia. f_equal. lia. }
  assert (Hpos : 0 < 2 ^ (w - 1)) by (apply Z.pow_pos_nonneg; lia).
  destruct (Z.neg_nonneg_cases z) as [Hneg|Hnn].
  - assert (E : z mod 2 ^ w = z + 2 ^ w).
    { symmetry. apply (Z.mod_unique _ _ (-1)); lia. }
    rewrite E. destruct (Z.ltb_spec (z + 2 ^ w) (2 ^ (w - 1))); lia.
  - rewrite Z.mod_small by lia.
    destruct (Z.ltb_spec z (2 ^ (w - 1))); lia.
Qed.

(** The packed identifier is computed without overflow: the four colour
    components were read as 32-bit integers, the arithmetic is done at
    64 bits. *)
Lemma packed_id_no_overflow r g b a :
  int32 r -> int32 g -> int32 b -> int32 a ->
  int_add (int_add (int_add r (int_mul g (2 ^ 8))) (int_mul b (2 ^ 16)))
          (int_mul a (2 ^ 24))
  = packed_id r g b a.
Proof.
  unfold int32, int_add, int_mul, packed_id, np_int_bits. intros Hr Hg Hb Ha.
  rewrite (wrap_small 64 (g * 2 ^ 8)) by lia.
  rewrite (wrap_small 64 (b * 2 ^ 16)) by lia.
  rewrite (wrap_small 64 (a * 2 ^ 24)) by lia.
  rewrite (wrap_small 64 (r + g * 2 ^ 8)) by lia.
  rewrite (wrap_small 64 (r + g * 2 ^ 8 + b * 2 ^ 16)) by lia.
  apply wrap_small; lia.
Qed.

(** One turn of the loop over the stored entries: row [i] of the table
    becomes the row of the entry. *)
Lemma read_annot_entry_enc e tl s ctab pre row post :
  entry_ok e ->
  rest s = enc_entry e ++ tl ->
  rows ctab = pre ++ row :: post ->
  length row = 5%nat ->
  exists s',
    read_annot_entry (length pre) ctab s =
      (Ok (mkArray2 (ncols ctab) (pre ++ entry_row e :: post)), s')
    /\ rest s' = tl.
Proof.
  intros (Hst & Hname & Hlen & Hrgba) Hrest Hrows Hrow.
  unfold enc_entry in Hrest. rewrite <- !app_assoc in Hrest.
  destruct (fromfile_i4_0_enc _ _ s Hst Hrest) as (s1 & E1 & R1).
  destruct (fromfile_i4_0_enc _ _ s1 Hlen R1) as (s2 & E2 & R2).
  destruct (fromfile_S_0_bytes _ _ s2 Hname R2) as (s3 & E3 & R3).
  destruct (fromfile_i4_enc _ _ s3 Hrgba R3) as (s4 & E4 & R4).
  exists s4. split; [|exact R4].
  unfold read_annot_entry.
  rewrite (bind_ok _ _ _ _ _ E1), (bind_ok _ _ _ _ _ E2),
    (bind_ok _ _ _ _ _ E3).
  change 4 with (Z.of_nat (length [e_R e; e_G e; e_B e; e_A e])).
  rewrite (bind_ok _ _ _ _ _ E4).
  destruct row as [|c0 [|c1 [|c2 [|c3 [|c4 [|]]]]]]; try discriminate Hrow.
  unfold bind, lift, ret, set_row_prefix4.
  rewrite Hrows, list_lookup_middle by reflexivity.
  rewrite insert_app_r_alt, Nat.sub_diag by lia. cbn [app drop skipn].
  unfold set2, get2. cbn [rows ncols].
  rewrite !(nth_lookup_Some _ _ _ [e_R e; e_G e; e_B e; e_A e; c4])
    by (apply list_lookup_middle; reflexivity).
  cbn [nth].
  rewrite insert_app_r_alt, Nat.sub_diag by lia.
  inversion Hrgba as [|? ? Hr H1]; subst.
  inversion H1 as [|? ? Hg H2]; subst.
  inversion H2 as [|? ? Hb H3]; subst.
  inversion H3 as [|? ? Ha _]; subst.
  rewrite packed_id_no_overflow by assumption.
  reflexivity.
Qed.

(** The loop over the stored entries fills one row per entry, in file
    order, and leaves the other rows as they were. *)
Lemma for_each_entries es : forall pre mid post tl s nc,
  Forall entry_ok es ->
  rest s = concat (map enc_entry es) ++ tl ->
  length mid = length es ->
  Forall (fun row => length row = 5%nat) mid ->
  exists s',
    for_each (seq (length pre) (length es)) read_annot_entry
      (mkArray2 nc (pre ++ mid ++ post)) s =
      (Ok (mkArray2 nc (pre ++ map entry_row es ++ post)), s')
    /\ rest s' = tl.
Proof.
  induction es as [|e es IH]; intros pre mid post tl s nc Hok Hrest Hlen Hmid.
  - destruct mid; [|discriminate Hlen]. exists s. split; [reflexivity|exact Hrest].
  - destruct mid as [|row mid]; [discriminate Hlen|].
    inversion Hok as [|? ? He Hes]; subst.
    inversion Hmid as [|? ? Hrow Hmid']; subst.
    cbn [map concat] in Hrest. rewrite <- app_assoc in Hrest.
    destruct (read_annot_entry_enc e _ s (mkArray2 nc (pre ++ (row :: mid) ++ post))
                pre row (mid ++ post) He Hrest eq_refl Hrow)
      as (s1 & E1 & R1).
    destruct (IH (pre ++ [entry_row e]) mid post tl s1 nc Hes R1) as (s2 & E2 & R2).
    { simpl in Hlen. lia. }
    { exact Hmid'. }
    exists s2. split; [|exact R2].
    cbn [length seq for_each]. rewrite (bind_ok _ _ _ _ _ E1). cbn [ncols].
    rewrite length_app in E2. cbn [length] in E2.
    rewrite Nat.add_1_r in E2. rewrite <- !app_assoc in E2. exact E2.
Qed.

Lemma lookup_map {A B} (f : A -> B) (l : list A) (i : nat) :
  map f l !! i = f <$> (l !! i).
Proof.
  revert i. induction l as [|a l IH]; intros [|i]; try reflexivity. apply IH.
Qed.

(** C7, as amended.  For an annotation file with a colour table of
    version -2 that declares [n_entries] entries and stores
    [entries_to_read <= n_entries] of them, the decoder returns a table
    of [n_entries] rows and 5 columns; row [i < entries_to_read] holds
    R, G, B, A of the [i]-th stored entry and, in column 4,
    R + G*2^8 + B*2^16 + A*2^24; every row from [entries_to_read] to
    [n_entries] is zero.  For (R, G, B, A) = (10, 20, 30, 0) the packed
    identifier is 1971210. *)
Theorem read_annot_color_table (fs : filesystem) filepath vnum data
    ctab_exists n_entries path entries tl :
  annot_head_ok vnum data ->
  int32 ctab_exists -> ctab_exists <> 0 ->
  int32 n_entries ->
  path <> [] -> int32 (Z.of_nat (length path)) ->
  Forall entry_ok entries ->
  Z.of_nat (length entries) <= n_entries ->
  fs !! filepath =
    Some (annot_head vnum data ++ enc_i4 ctab_exists
          ++ ctab_v2 n_entries path entries ++ tl) ->
  exists ctab,
    read_annot fs filepath = Ok (Some ctab)
    /\ Z.of_nat (nrows ctab) = n_entries
    /\ ncols ctab = 5%nat
    /\ Forall (fun row => length row = 5%nat) (rows ctab)
    /\ (forall i e, entries !! i = Some e ->
          rows ctab !! i =
            Some [e_R e; e_G e; e_B e; e_A e;
                  e_R e + e_G e * 2 ^ 8 + e_B e * 2 ^ 16 + e_A e * 2 ^ 24])
    /\ (forall i, (length entries <= i)%nat -> Z.of_nat i < n_entries ->
          rows ctab !! i = Some [0; 0; 0; 0; 0])
    /\ packed_id 10 20 30 0 = 1971210.
Proof.
  intros Hhead Hflag Hex Hn Hpath Hplen Hes Hle Hfs.
  set (n := Z.to_nat n_entries).
  set (k := length entries).
  exists (mkArray2 5 (map entry_row entries ++ replicate (n - k) (replicate 5 0))).
  assert (Hen : int32 (Z.of_nat k)) by (unfold int32 in *; lia).
  split; [|split; [|split; [|split; [|split; [|split]]]]].
  - unfold read_annot, with_open. rewrite Hfs.
    edestruct (read_annot_head (A := option (array2 Z))) as (s1 & R1 & E1);
      [exact Hhead | apply rest_open_stream | ].
    rewrite E1. clear E1.
    unfold ctab_v2 in R1. rewrite <- !app_assoc in R1.
    destruct (fromfile_i4_0_enc _ _ s1 Hflag R1) as (s2 & E2 & R2).
    rewrite (bind_ok _ _ _ _ _ E2).
    destruct (Z.eqb_spec ctab_exists 0) as [|_]; [congruence|].
    destruct (fromfile_i4_0_enc (-2) _ s2 ltac:(unfold int32; lia) R2)
      as (s3 & E3 & R3).
    rewrite (bind_ok _ _ _ _ _ E3). cbn [Z.eqb Pos.eqb negb].
    destruct (fromfile_i4_0_enc _ _ s3 Hn R3) as (s4 & E4 & R4).
    rewrite (bind_ok _ _ _ _ _ E4).
    unfold bind at 1, lift at 1, np_zeros2.
    destruct (Z.ltb_spec n_entries 0) as [Hneg|_]; [lia|].
    destruct (fromfile_i4_0_enc _ _ s4 Hplen R4) as (s5 & E5 & R5).
    rewrite (bind_ok _ _ _ _ _ E5).
    destruct (fromfile_S_0_bytes _ _ s5 Hpath R5) as (s6 & E6 & R6).
    rewrite (bind_ok _ _ _ _ _ E6).
    destruct (fromfile_i4_0_enc _ _ s6 Hen R6) as (s7 & E7 & R7).
    rewrite (bind_ok _ _ _ _ _ E7).
    unfold xrange. rewrite Nat2Z.id. fold n.
    replace n with (k + (n - k))%nat at 1 by lia.
    rewrite replicate_add.
    destruct (for_each_entries entries [] (replicate k (replicate 5 0))
                (replicate (n - k) (replicate 5 0)) tl s7 5%nat Hes R7)
      as (s8 & E8 & R8).
    { apply length_replicate. }
    { apply Forall_replicate. reflexivity. }
    cbn [app length] in E8. fold k in E8.
    rewrite (bind_ok _ _ _ _ _ E8). reflexivity.
  - unfold nrows. cbn [rows]. rewrite length_app, length_map, length_replicate.
    fold k. lia.
  - reflexivity.
  - cbn [rows]. apply Forall_app. split.
    + apply Forall_map, Forall_forall. intros e _. reflexivity.
    + apply Forall_replicate. reflexivity.
  - intros i e Hi. cbn [rows].
    rewrite lookup_app_l by (rewrite length_map; eapply lookup_lt_Some, Hi).
    rewrite lookup_map, Hi. reflexivity.
  - intros i Hi Hlt. cbn [rows].
    rewrite lookup_app_r by (rewrite length_map; exact Hi).
    rewrite length_map. apply lookup_replicate_2. fold k. lia.
  - reflexivity.
Qed.

Ltac int32_tac := unfold int32; lia.

Lemma read_annot_no_table_witness :
  read_annot {["lh.aparc.annot"%string := annot_head 1 [0; 77] ++ enc_i4 0 ++ []]}
    "lh.aparc.annot" = Ok None.
Proof.
  apply (read_annot_no_table _ "lh.aparc.annot" 1 [0; 77] 0 []).
  - unfold annot_head_ok. repeat split; try lia.
    repeat constructor; lia.
  - int32_tac.
  - reflexivity.
  - reflexivity.
Defined.

Lemma read_annot_color_table_witness :
  exists ctab,
    read_annot {["lh.aparc.annot"%string := annot_sample]} "lh.aparc.annot"
      = Ok (Some ctab)
    /\ Z.of_nat (nrows ctab) = 3
    /\ rows ctab !! 2%nat = Some [0; 0; 0; 0; 0].
Proof.
  destruct (read_annot_color_table
              {["lh.aparc.annot"%string := annot_sample]} "lh.aparc.annot"
              2 [0; 77; 1; 88] 1 3 ["A"; "000"]%byte
              [mkEntry 0 ["000"]%byte 10 20 30 0;
               mkEntry 5 ["B"; "000"]%byte 255 255 255 255] [])
    as (ctab & Hread & Hrows & _ & _ & _ & Hzero & _).
  - unfold annot_head_ok. repeat split; try lia. repeat constructor; lia.
  - int32_tac.
  - lia.
  - int32_tac.
  - discriminate.
  - simpl. int32_tac.
  - repeat constructor; simpl; try lia; discriminate.
  - simpl. lia.
  - vm_compute. reflexivity.
  - exists ctab. split; [exact Hread|]. split; [exact Hrows|].
    apply Hzero; simpl; lia.
Defined.

(** C7, the claim as stated: the entry (R, G, B, A) = (10, 20, 30, 0)
    does not get 1972746 in column 4. *)
Lemma read_annot_packed_id_counterexample :
  exists ctab,
    read_annot {["lh.aparc.annot"%string := annot_sample]} "lh.aparc.annot"
      = Ok (Some ctab)
    /\ (get2 ctab 0 0, get2 ctab 0 1, get2 ctab 0 2, get2 ctab 0 3)
       = (10, 20, 30, 0)
    /\ get2 ctab 0 4 = 10 + 20 * 2 ^ 8 + 30 * 2 ^ 16 + 0 * 2 ^ 24
    /\ get2 ctab 0 4 <> 1972746.
Proof.
  eexists. split; [vm_compute; reflexivity|].
  split; [reflexivity|]. split; [reflexivity|]. vm_compute. discriminate.
Qed.

Lemma for_each_app {A S} (body : A -> S -> M S) l1 l2 : forall acc s acc1 s1,
  for_each l1 body acc s = (Ok acc1, s1) ->
  for_each (l1 ++ l2) body acc s = for_each l2 body acc1 s1.
Proof.
  induction l1 as [|a l1 IH]; intros acc s acc1 s1 H.
  - injection H as <- <-. reflexivity.
  - cbn [app for_each] in *.
    apply bind_inv in H as (a' & s' & Hb & H).
    rewrite (bind_ok _ _ _ _ _ Hb). apply IH, H.
Qed.

(** An entry read for a row that the table does not have. *)
Lemma read_annot_entry_out_of_range e tl s ctab i :
  entry_ok e ->
  rest s = enc_entry e ++ tl ->
  (nrows ctab <= i)%nat ->
  fst (read_annot_entry i ctab s) = Raise IndexError.
Proof.
  intros (Hst & Hname & Hlen & Hrgba) Hrest Hi.
  unfold enc_entry in Hrest. rewrite <- !app_assoc in Hrest.
  destruct (fromfile_i4_0_enc _ _ s Hst Hrest) as (s1 & E1 & R1).
  destruct (fromfile_i4_0_enc _ _ s1 Hlen R1) as (s2 & E2 & R2).
  destruct (fromfile_S_0_bytes _ _ s2 Hname R2) as (s3 & E3 & R3).
  destruct (fromfile_i4_enc _ _ s3 Hrgba R3) as (s4 & E4 & R4).
  unfold read_annot_entry.
  rewrite (bind_ok _ _ _ _ _ E1), (bind_ok _ _ _ _ _ E2),
    (bind_ok _ _ _ _ _ E3).
  change 4 with (Z.of_nat (length [e_R e; e_G e; e_B e; e_A e])).
  rewrite (bind_ok _ _ _ _ _ E4).
  unfold bind, lift, set_row_prefix4.
  rewrite (lookup_ge_None_2 (rows ctab) i) by exact Hi. reflexivity.
Qed.

(** X7.  A colour table that stores more entries than it declares
    makes the decoder raise [IndexError]: no table is returned. *)
Lemma read_annot_too_many_entries (fs : filesystem) filepath vnum data
    ctab_exists n_entries path entries tl :
  annot_head_ok vnum data ->
  int32 ctab_exists -> ctab_exists <> 0 ->
  int32 n_entries -> 0 <= n_entries ->
  path <> [] -> int32 (Z.of_nat (length path)) ->
  Forall entry_ok entries ->
  int32 (Z.of_nat (length entries)) ->
  n_entries < Z.of_nat (length entries) ->
  fs !! filepath =
    Some (annot_head vnum data ++ enc_i4 ctab_exists
          ++ ctab_v2 n_entries path entries ++ tl) ->
  read_annot fs filepath = Raise IndexError.
Proof.
  intros Hhead Hflag Hex Hn Hn0 Hpath Hplen Hes Hen Hlt Hfs.
  set (n := Z.to_nat n_entries).
  assert (Hsplit : entries = take n entries ++ drop n entries)
    by (symmetry; apply take_drop).
  destruct (drop n entries) as [|e more] eqn:Hdrop.
  { apply (f_equal length) in Hdrop. rewrite length_drop in Hdrop.
    simpl in Hdrop. lia. }
  remember (take n entries) as first eqn:Hf.
  assert (Hfirst : length first = n)
    by (rewrite Hf, length_take; lia).
  clear Hf.
  assert (Hok : Forall entry_ok first /\ entry_ok e).
  { rewrite Hsplit in Hes. apply Forall_app in Hes as [H1 H2].
    inversion H2; subst. auto. }
  destruct Hok as [Hokf Hoke].
  unfold read_annot, with_open. rewrite Hfs.
  edestruct (read_annot_head (A := option (array2 Z))) as (s1 & R1 & E1);
    [exact Hhead | apply rest_open_stream | ].
  rewrite E1. clear E1.
  unfold ctab_v2 in R1. rewrite <- !app_assoc in R1.
  destruct (fromfile_i4_0_enc _ _ s1 Hflag R1) as (s2 & E2 & R2).
  rewrite (bind_ok _ _ _ _ _ E2).
  destruct (Z.eqb_spec ctab_exists 0) as [|_]; [congruence|].
  destruct (fromfile_i4_0_enc (-2) _ s2 ltac:(unfold int32; lia) R2)
    as (s3 & E3 & R3).
  rewrite (bind_ok _ _ _ _ _ E3). cbn [Z.eqb Pos.eqb negb].
  destruct (fromfile_i4_0_enc _ _ s3 Hn R3) as (s4 & E4 & R4).
  rewrite (bind_ok _ _ _ _ _ E4).
  unfold bind at 1, lift at 1, np_zeros2.
  destruct (Z.ltb_spec n_entries 0) as [Hneg|_]; [lia|].
  destruct (fromfile_i4_0_enc _ _ s4 Hplen R4) as (s5 & E5 & R5).
  rewrite (bind_ok _ _ _ _ _ E5).
  destruct (fromfile_S_0_bytes _ _ s5 Hpath R5) as (s6 & E6 & R6).
  rewrite (bind_ok _ _ _ _ _ E6).
  destruct (fromfile_i4_0_enc _ _ s6 Hen R6) as (s7 & E7 & R7).
  rewrite (bind_ok _ _ _ _ _ E7).
  unfold xrange. rewrite Nat2Z.id. fold n.
  rewrite Hsplit in R7. rewrite map_app, concat_app in R7.
  cbn [map concat] in R7. rewrite <- !app_assoc in R7.
  destruct (for_each_entries first [] (replicate n (replicate 5 0)) []
              _ s7 5%nat Hokf R7) as (s8 & E8 & R8).
  { rewrite length_replicate. symmetry. exact Hfirst. }
  { apply Forall_replicate. reflexivity. }
  cbn [app length] in E8. rewrite app_nil_r in E8.
  rewrite (app_nil_r (map entry_row first)) in E8.
  replace (length entries) with (length first + S (length more))%nat
    by (rewrite Hsplit, length_app; reflexivity).
  rewrite seq_app. unfold bind at 1.
  rewrite (for_each_app _ _ _ _ _ _ _ E8).
  cbn [seq for_each]. unfold bind at 1.
  pose proof (read_annot_entry_out_of_range e _ s8
                (mkArray2 5 (map entry_row first)) (0 + length first)
                Hoke R8) as Hraise.
  destruct (read_annot_entry (0 + length first)
              (mkArray2 5 (map entry_row first)) s8) as [r s9].
  cbn [fst] in Hraise. rewrite Hraise; [reflexivity|].
  unfold nrows. cbn [rows]. rewrite length_map. lia.
Qed.

(** ** The curvature decoder *)

Lemma be_int_enc_i2 z : int16 z -> be_int (enc_i2 z) = z.
Proof.
  intros H. unfold be_int, enc_i2.
  rewrite length_enc_be, be_uint_enc_be.
  change (8 * Z.of_nat 2) with 16. change (256 ^ Z.of_nat 2) with (2 ^ 16).
  apply (wrap_small 16); [lia|exact H].
Qed.

Lemma fread3_enc_u3 m tl s :
  0 <= m < 2 ^ 24 ->
  rest s = enc_u3 m ++ tl ->
  exists s', _fread3 s = (Ok m, s') /\ rest s' = tl.
Proof.
  intros Hm Hrest. unfold enc_u3 in Hrest. cbn [enc_be app] in Hrest.
  exists (advance 3 s). split.
  - rewrite (fread3_cons _ _ _ _ _ Hrest). f_equal. f_equal.
    rewrite !byte_val_of_Z. Z.div_mod_to_equations. lia.
  - rewrite rest_advance, Hrest. reflexivity.
Qed.

Lemma fromfile_i2_enc vals tl s :
  Forall int16 vals ->
  rest s = concat (map enc_i2 vals) ++ tl ->
  exists s', fromfile_i2 (Z.of_nat (length vals)) s = (Ok vals, s')
             /\ rest s' = tl.
Proof.
  intros Hv Hrest. unfold fromfile_i2, bind.
  destruct (np_fromfile_concat 2 (map enc_i2 vals) tl s) as (s' & E & Hs').
  - discriminate.
  - apply Forall_map, Forall_forall. intros v _. apply length_enc_be.
  - exact Hrest.
  - rewrite length_map in E. rewrite E. exists s'. split; [|exact Hs'].
    unfold ret. f_equal. f_equal. rewrite map_map.
    rewrite <- (map_id vals) at 2. apply map_ext_Forall.
    eapply Forall_impl; [exact Hv|]. intros v Hi. apply be_int_enc_i2, Hi.
Qed.

(** X6.  What the decoder makes of an old-format file: the 16-bit
    values, each divided by 100 as integers, rounding down. *)
Lemma read_curvature_old (fs : filesystem) filepath magic skip vals tl :
  0 <= magic < 2 ^ 24 -> magic <> 16777215 ->
  0 <= skip < 2 ^ 24 ->
  Forall int16 vals ->
  Z.of_nat (length vals) = magic ->
  fs !! filepath = Some (curv_old magic skip vals ++ tl) ->
  read_curvature fs filepath = Ok (IntArray i2 (map (fun v => v / 100) vals)).
Proof.
  intros Hm Hnew Hs Hv Hlen Hfs.
  unfold read_curvature, with_open. rewrite Hfs.
  assert (R0 : rest (open_stream (curv_old magic skip vals ++ tl))
               = enc_u3 magic ++ enc_u3 skip ++ concat (map enc_i2 vals) ++ tl).
  { rewrite rest_open_stream. unfold curv_old. rewrite <- !app_assoc. reflexivity. }
  destruct (fread3_enc_u3 _ _ _ Hm R0) as (s1 & E1 & R1).
  rewrite (bind_ok _ _ _ _ _ E1).
  destruct (Z.eqb_spec magic 16777215) as [|_]; [congruence|].
  destruct (fread3_enc_u3 _ _ _ Hs R1) as (s2 & E2 & R2).
  rewrite (bind_ok _ _ _ _ _ E2).
  destruct (fromfile_i2_enc _ _ _ Hv R2) as (s3 & E3 & R3).
  rewrite <- Hlen, (bind_ok _ _ _ _ _ E3). reflexivity.
Qed.

(** C2.  The old-format file with magic number 5, a skipped 3-byte
    field and the 16-bit values 100, -50, 0, 200, 1 is decoded to the
    integers 1, -1, 0, 2, 0: the division by 100 is the integer
    division of Python 2, not a division by 100.0 that would give
    1.0, -0.5, 0.0, 2.0, 0.01. *)
Theorem read_curvature_old_sample :
  read_curvature {["lh.curv"%string := curv_old_sample]} "lh.curv"
  = Ok (IntArray i2 [1; -1; 0; 2; 0]).
Proof. vm_compute. reflexivity. Qed.

(** ** The volume scalar decoder *)

Lemma fobj_read_exact bs tl s :
  rest s = bs ++ tl ->
  fobj_read (Z.of_nat (length bs)) s = (Ok bs, advance (length bs) s)
  /\ rest (advance (length bs) s) = tl.
Proof.
  intros Hrest. unfold fobj_read.
  destruct (Z.ltb_spec (Z.of_nat (length bs)) 0) as [|_]; [lia|].
  rewrite Nat2Z.id, Hrest, length_app, Nat.min_l by lia.
  rewrite take_app_length. split; [reflexivity|].
  rewrite rest_advance, Hrest. apply drop_app_length.
Qed.

Lemma np_fromstring_enc_i4 v :
  int32 v -> np_fromstring (enc_i4 v) i4 = Ok (IntArray i4 [v]).
Proof.
  intros Hv. rewrite <- (be_int_enc_i4 v Hv) at 2.
  unfold enc_i4. cbn [enc_be app]. reflexivity.
Qed.

Lemma read_i4_0_enc v tl s :
  int32 v ->
  rest s = enc_i4 v ++ tl ->
  read_i4_0 s = (Ok v, advance 4 s) /\ rest (advance 4 s) = tl.
Proof.
  intros Hv Hrest.
  destruct (fobj_read_exact (enc_i4 v) tl s Hrest) as [E R].
  unfold enc_i4 in E at 1, R at 1. rewrite length_enc_be in E, R.
  split; [|exact R].
  unfold read_i4_0. change 4 with (Z.of_nat 4). rewrite (bind_ok _ _ _ _ _ E).
  unfold bind, lift. rewrite (np_fromstring_enc_i4 v Hv). reflexivity.
Qed.

Lemma datatype_table_itemsize code databytes typecode :
  datatype_table code = Ok (databytes, typecode) ->
  int32 code /\ Z.of_nat (itemsize typecode) = databytes
  /\ databytes > 0
  /\ (typecode = i1 \/ typecode = i4 \/ typecode = f4 \/ typecode = i2).
Proof.
  unfold datatype_table, int32. intros H.
  destruct code as [|[[|[]|]|[|[]|]|]|]; try discriminate H;
    injection H as <- <-; cbn; repeat split; try lia; auto.
Qed.

(** What the [try] block of the volume scalar decoder binds to
    [scalar_data] on a well-formed file of version 1: the
    dim1 x dim2 x dim3 x frames elements decoded from the bytes at
    offset 284. *)
Lemma load_scalar_data_try_decodes d1 d2 d3 nf code databytes typecode
    pad data tl :
  datatype_table code = Ok (databytes, typecode) ->
  0 <= d1 -> 0 <= d2 -> 0 <= d3 -> 0 <= nf ->
  d1 < 2 ^ 31 -> d1 * d2 < 2 ^ 31 -> d1 * d2 * d3 < 2 ^ 31 ->
  d1 * d2 * d3 * nf < 2 ^ 31 ->
  d2 < 2 ^ 31 -> d3 < 2 ^ 31 -> nf < 2 ^ 31 ->
  length pad = 260%nat ->
  Z.of_nat (length data) = d1 * d2 * d3 * nf * databytes ->
  exists scalar_data,
    fst (load_scalar_data_try
           (open_stream
              (concat (map enc_i4 [1; d1; d2; d3; nf; code])
               ++ pad ++ data ++ tl)))
    = Ok scalar_data
    /\ np_fromstring data typecode = Ok scalar_data
    /\ Z.of_nat (array_size scalar_data) = d1 * d2 * d3 * nf.
Proof.
  intros Hdt H1 H2 H3 H4 B1 B12 B123 B H2' H3' H4' Hpad Hlen.
  destruct (datatype_table_itemsize _ _ _ Hdt) as (Hcode & Hsize & Hpos & Htc).
  set (file := concat (map enc_i4 [1; d1; d2; d3; nf; code])
               ++ pad ++ data ++ tl).
  assert (R0 : rest (open_stream file)
               = enc_i4 1 ++ enc_i4 d1 ++ enc_i4 d2 ++ enc_i4 d3
                 ++ enc_i4 nf ++ enc_i4 code ++ pad ++ data ++ tl).
  { rewrite rest_open_stream. unfold file. cbn [map concat].
    rewrite <- !app_assoc. reflexivity. }
  destruct (read_i4_0_enc 1 _ _ ltac:(unfold int32; lia) R0) as [E1 R1].
  destruct (read_i4_0_enc d1 _ _ ltac:(unfold int32; lia) R1) as [E2 R2].
  destruct (read_i4_0_enc d2 _ _ ltac:(unfold int32; lia) R2) as [E3 R3].
  destruct (read_i4_0_enc d3 _ _ ltac:(unfold int32; lia) R3) as [E4 R4].
  destruct (read_i4_0_enc nf _ _ ltac:(unfold int32; lia) R4) as [E5 R5].
  destruct (read_i4_0_enc code _ _ Hcode R5) as [E6 R6].
  unfold load_scalar_data_try.
  rewrite (bind_ok _ _ _ _ _ E1). cbn [Z.eqb Pos.eqb negb].
  rewrite (bind_ok _ _ _ _ _ E2), (bind_ok _ _ _ _ _ E3),
    (bind_ok _ _ _ _ _ E4), (bind_ok _ _ _ _ _ E5), (bind_ok _ _ _ _ _ E6).
  unfold bind at 1, lift at 1. rewrite Hdt. cbn [fst snd].
  unfold bind at 1, fobj_seek.
  match goal with |- context [fst (_ ?s)] => set (s7 := s) end.
  assert (Rs : rest s7 = data ++ tl).
  { unfold rest, s7. cbn [pos content advance open_stream].
    unfold file. rewrite app_assoc.
    apply drop_app_length'. rewrite length_app, Hpad.
    cbn [map concat]. rewrite !length_app.
    unfold enc_i4. rewrite !length_enc_be. reflexivity. }
  unfold int32_mul.
  rewrite (wrap_small 32 (d1 * d2)) by lia.
  rewrite (wrap_small 32 (d1 * d2 * d3)) by nia.
  rewrite (wrap_small 32 (d1 * d2 * d3 * nf)) by nia.
  rewrite <- Hlen.
  destruct (fobj_read_exact data tl s7 Rs) as [Er _].
  rewrite (bind_ok _ _ _ _ _ Er). unfold lift. cbn [fst].
  unfold np_fromstring.
  assert (Hn : length data
               = (Z.to_nat (d1 * d2 * d3 * nf) * itemsize typecode)%nat) by nia.
  assert (Hi : (0 < itemsize typecode)%nat) by lia.
  rewrite Hn, Nat.Div0.mod_mul, Nat.div_mul by lia. cbn [Nat.eqb].
  assert (Hlenitems :
    length (items (itemsize typecode) (Z.to_nat (d1 * d2 * d3 * nf)) data)
    = Z.to_nat (d1 * d2 * d3 * nf)).
  { clear -Hn Hi. revert data Hn.
    generalize (Z.to_nat (d1 * d2 * d3 * nf)) as k.
    induction k as [|k IH]; intros data Hn; [reflexivity|].
    cbn [items].
    destruct (Nat.leb_spec (itemsize typecode) (length data)) as [_|]; [|lia].
    cbn [length]. f_equal. apply IH. rewrite length_drop. lia. }
  destruct Htc as [-> | [-> | [-> | ->]]];
    (eexists; split; [reflexivity|]; split; [reflexivity|];
     cbn [array_size]; rewrite length_map, Hlenitems; nia).
Qed.

(** C1.  The fallback path of the volume scalar decoder never returns
    an array: when it does not raise it returns [None], whatever the
    [try] block decoded.  The file object, once opened, is closed on
    every exit.  On the sample file the [try] block decodes the one
    voxel, and the function returns [None]. *)
Theorem load_scalar_data_fallback_returns_none :
  (forall gunzip fs filepath gz,
     match load_scalar_data_fallback gunzip fs filepath gz with
     | (Ok (Some _), _) => False
     | (_, Some fobj) => closed fobj = true
     | (_, None) => fs !! filepath = None
     end)
  /\ fst (load_scalar_data_try (open_stream mgh_sample)) = Ok (IntArray i1 [7])
  /\ fst (load_scalar_data nib_fails gunzip_id
            {["vol.mgh"%string := mgh_sample]} "vol.mgh") = Ok None.
Proof.
  split; [|split].
  - intros gunzip fs filepath gz. unfold load_scalar_data_fallback.
    destruct (fs !! filepath) as [bytes|]; [|reflexivity].
    destruct (if gz then gunzip bytes else Ok bytes) as [bs|e]; [|reflexivity].
    unfold try_finally_close.
    destruct (load_scalar_data_try (open_stream bs)) as [[a|e] s']; reflexivity.
  - vm_compute. reflexivity.
  - vm_compute. reflexivity.
Qed.

(** ** Labels *)

Lemma length_put_ones idx : forall a v,
  put_ones a idx = Ok v -> length v = length a.
Proof.
  induction idx as [|i idx IH]; intros a v H; cbn [put_ones] in H.
  - injection H as <-. reflexivity.
  - destruct ((- Z.of_nat (length a) <=? i) && (i <? Z.of_nat (length a)));
      [|discriminate H].
    apply IH in H. rewrite length_insert in H. exact H.
Qed.

(** The expansion of a list of vertex indices in range: 1 at the listed
    positions, the other positions as they were. *)
Lemma put_ones_indicator idx : forall a,
  Forall (fun i => 0 <= i < Z.of_nat (length a)) idx ->
  exists v,
    put_ones a idx = Ok v /\
    forall j x, a !! j = Some x ->
      v !! j = Some (if bool_decide (Z.of_nat j ∈ idx) then 1 else x).
Proof.
  induction idx as [|i idx IH]; intros a Hidx.
  - exists a. split; [reflexivity|]. intros j x Hj.
    rewrite bool_decide_eq_false_2 by (apply not_elem_of_nil). exact Hj.
  - inversion Hidx as [|? ? Hi Hrest]; subst. cbn [put_ones].
    destruct (Z.leb_spec (- Z.of_nat (length a)) i) as [_|]; [|lia].
    destruct (Z.ltb_spec i (Z.of_nat (length a))) as [_|]; [|lia].
    cbn [andb]. rewrite Z.mod_small by lia.
    destruct (IH (<[Z.to_nat i := 1]> a)) as (v & Hv & Hlook).
    { rewrite length_insert. exact Hrest. }
    exists v. split; [exact Hv|]. intros j x Hj.
    destruct (decide (j = Z.to_nat i)) as [->|Hne].
    + rewrite (Hlook _ 1) by (apply list_lookup_insert_eq; lia).
      rewrite (bool_decide_eq_true_2 (_ ∈ i :: idx))
        by (rewrite Z2Nat.id by lia; apply elem_of_cons; left; reflexivity).
      destruct (bool_decide _); reflexivity.
    + rewrite (Hlook _ x) by (rewrite list_lookup_insert_ne by auto; exact Hj).
      destruct (bool_decide (Z.of_nat j ∈ idx)) eqn:E.
      * apply bool_decide_eq_true_1 in E.
        rewrite bool_decide_eq_true_2 by (apply elem_of_cons; right; exact E).
        reflexivity.
      * apply bool_decide_eq_false_1 in E.
        rewrite bool_decide_eq_false_2; [reflexivity|].
        intros Hin. apply elem_of_cons in Hin as [Heq|Hin]; [lia|auto].
Qed.

(** What [load_label] does on an object with geometry: the indicator
    vector of the label goes into the dictionary, under the given name
    when the object has a dictionary, under ["name"] when it has none. *)
Lemma load_label_loaded np_loadtxt (fs : filesystem) self name c label :
  coords self = Some c ->
  (0 < ncols c)%nat ->
  Forall (fun row => (0 < length row)%nat) (rows c) ->
  read_label np_loadtxt fs (label_path self name) = Ok label ->
  Forall (fun i => 0 <= i < Z.of_nat (nrows c)) label ->
  exists self' v,
    load_label np_loadtxt fs self name = Ok self'
    /\ length v = nrows c
    /\ (forall j, (j < nrows c)%nat ->
          v !! j = Some (if bool_decide (Z.of_nat j ∈ label) then 1 else 0))
    /\ labels self' =
         Some (match labels self with
               | Some d => <[name := v]> d
               | None => {["name"%string := v]}
               end).
Proof.
  intros Hc Hcols Hrows Hlabel Hidx.
  assert (Hx : exists xs, x self = Ok xs /\ length xs = nrows c).
  { unfold x. rewrite Hc. cbn [getattr rbind]. unfold column.
    destruct (Nat.ltb_spec 0 (ncols c)) as [_|]; [|lia].
    eexists. split; [reflexivity|]. unfold nrows.
    clear -Hrows. induction Hrows as [|row rs Hrow _ IH]; [reflexivity|].
    destruct row; [simpl in Hrow; lia|]. cbn. f_equal. exact IH. }
  destruct Hx as (xs & Hx & Hlen).
  destruct (put_ones_indicator label (np_zeros (length xs))) as (v & Hv & Hlook).
  { unfold np_zeros. rewrite length_replicate, Hlen. exact Hidx. }
  eexists _, v. split; [|split; [|split]].
  - unfold load_label. rewrite Hlabel. cbn [rbind]. rewrite Hx. cbn [rbind].
    rewrite Hv. cbn [rbind]. reflexivity.
  - apply length_put_ones in Hv. unfold np_zeros in Hv.
    rewrite length_replicate in Hv. lia.
  - intros j Hj. apply Hlook. unfold np_zeros.
    apply lookup_replicate_2. lia.
  - reflexivity.
Qed.

(** C3.  The first [load_label] call on an object stores the indicator
    vector under the key ["name"], not under the value of [name]: with
    five vertices and a label file listing the vertices 0 and 3,
    [load_label("cortex")] leaves the dictionary
    [{"name": [1, 0, 0, 1, 0]}], in which ["cortex"] is not a key.  A
    later call does insert under the value of its argument. *)
Theorem load_label_first_call_key :
  exists s0 s1 s2 s3,
    __init__ environ_sample "bert" "lh" "inflated" = Ok s0
    /\ load_geometry fs_sample s0 = Ok s1
    /\ load_label loadtxt_0_3 fs_sample s1 "cortex" = Ok s2
    /\ labels s2 = Some {["name"%string := [1; 0; 0; 1; 0]]}
    /\ (labels s2 ≫= fun d => d !! "cortex"%string) = None
    /\ load_label loadtxt_0_3 fs_sample s2 "cortex" = Ok s3
    /\ labels s3 = Some {["name"%string := [1; 0; 0; 1; 0];
                         "cortex"%string := [1; 0; 0; 1; 0]]}.
Proof.
  eexists _, _, _, _.
  split; [vm_compute; reflexivity|].
  split; [vm_compute; reflexivity|].
  split; [vm_compute; reflexivity|].
  split; [vm_compute; reflexivity|].
  split; [vm_compute; reflexivity|].
  split; [vm_compute; reflexivity|].
  vm_compute; reflexivity.
Qed.

(** ** Geometry and the axis views *)

Lemma items_lengths {A} (size n : nat) : forall l : list A,
  Forall (fun c => length c = size) (items size n l).
Proof.
  induction n as [|n IH]; intros l; cbn [items]; [constructor|].
  destruct (Nat.leb_spec size (length l)) as [Hle|_]; [|constructor].
  constructor; [|apply IH]. rewrite length_take. lia.
Qed.

Lemma reshape_shape {A} (a : list A) r c arr :
  reshape a r c = Ok arr ->
  ncols arr = c /\ Forall (fun row => length row = c) (rows arr).
Proof.
  unfold reshape. intros H.
  destruct (r <? 0).
  - destruct c as [|c']; [discriminate H|].
    destruct (length a mod S c' =? 0)%nat; [|discriminate H].
    injection H as <-. split; [reflexivity|apply items_lengths].
  - destruct (length a =? Z.to_nat r * c)%nat; [|discriminate H].
    injection H as <-. split; [reflexivity|apply items_lengths].
Qed.

(** The vertex array of a decoded surface has three columns. *)
Lemma read_geometry_shape (fs : filesystem) filepath c f :
  read_geometry fs filepath = Ok (c, f) ->
  has_shape c (nrows c) 3 /\ has_shape f (nrows f) 3.
Proof.
  unfold read_geometry, with_open. intros H.
  destruct (fs !! filepath) as [bs|]; [|discriminate H].
  match type of H with fst (?body ?s) = _ =>
    destruct (body s) as [r s'] eqn:E end.
  cbn [fst] in H. subst r.
  apply bind_inv in E as (magic & s1 & _ & E).
  destruct (magic =? 16777215); [discriminate E|].
  destruct (negb (magic =? 16777214)); [discriminate E|].
  apply bind_inv in E as (? & ? & _ & E).
  apply bind_inv in E as (? & ? & _ & E).
  apply bind_inv in E as (vnum & ? & _ & E).
  apply bind_inv in E as (fnum & ? & _ & E).
  apply bind_inv in E as (cs & ? & _ & E).
  apply bind_inv in E as (coords & ? & Hc & E).
  apply bind_inv in E as (fs' & ? & _ & E).
  apply bind_inv in E as (faces & ? & Hf & E).
  injection E as <- <- _.
  unfold lift in Hc, Hf. injection Hc as Hc _. injection Hf as Hf _.
  apply reshape_shape in Hc as [? ?]. apply reshape_shape in Hf as [? ?].
  unfold has_shape. auto.
Qed.

(** The columns of an array whose rows have three elements. *)
Lemma columns_of_rows {A} (c : array2 A) :
  ncols c = 3%nat -> Forall (fun row => length row = 3%nat) (rows c) ->
  exists xs ys zs,
    column c 0 = Ok xs /\ column c 1 = Ok ys /\ column c 2 = Ok zs
    /\ length xs = nrows c /\ length ys = nrows c /\ length zs = nrows c
    /\ forall i row, rows c !! i = Some row ->
         exists a b d, row = [a; b; d]
           /\ xs !! i = Some a /\ ys !! i = Some b /\ zs !! i = Some d.
Proof.
  intros Hn Hrows. unfold column, nrows. rewrite Hn. cbn [Nat.ltb Nat.leb].
  eexists _, _, _. split; [reflexivity|]. split; [reflexivity|].
  split; [reflexivity|].
  induction Hrows as [|row rs Hrow _ IH].
  - repeat split; try reflexivity. intros i row Hi. destruct i; discriminate Hi.
  - destruct row as [|a [|b [|d [|]]]]; try discriminate Hrow.
    destruct IH as (L1 & L2 & L3 & IH).
    cbn [omap list_omap lookup list_lookup length].
    split; [f_equal; exact L1|]. split; [f_equal; exact L2|].
    split; [f_equal; exact L3|].
    intros [|i] row Hi.
    + injection Hi as <-. exists a, b, d. repeat split; reflexivity.
    + apply IH. exact Hi.
Qed.

(** No call other than [load_geometry] gives an object its [coords]. *)
Lemma coords_none_after np_loadtxt (fs : filesystem) cs : forall self,
  coords self = None ->
  Forall (fun c => c <> LoadGeometry) cs ->
  coords (after_all np_loadtxt fs self cs) = None.
Proof.
  induction cs as [|c cs IH]; intros self Hnone Hcs; [exact Hnone|].
  inversion Hcs as [|? ? Hc Hcs']; subst.
  cbn [after_all fold_left]. apply IH; [|exact Hcs'].
  unfold after. destruct c as [| |name|mtx]; cbn [do_call].
  - congruence.
  - unfold load_curvature.
    destruct (read_curvature fs (curv_path self)); cbn [rbind]; exact Hnone.
  - unfold load_label.
    destruct (read_label np_loadtxt fs (label_path self name));
      cbn [rbind]; [|exact Hnone].
    unfold x. rewrite Hnone. cbn [getattr rbind]. exact Hnone.
  - unfold apply_xfm. rewrite Hnone. cbn [getattr rbind]. exact Hnone.
Qed.

(** C4.  On an object made by the constructor, as long as
    [load_geometry] was not among the calls made on it, each of [x],
    [y], [z] raises [AttributeError] (the MissingDependencyError of the
    specification).  After a [load_geometry] that succeeded, [x], [y],
    [z] return columns 0, 1, 2 of the vertex array that the geometry
    decoder returned: row [i] of the array is [x[i], y[i], z[i]]. *)
Theorem axis_views np_loadtxt (fs : filesystem) :
  (forall environ subject_id hemi surf self cs,
     __init__ environ subject_id hemi surf = Ok self ->
     Forall (fun c => c <> LoadGeometry) cs ->
     let self' := after_all np_loadtxt fs self cs in
     x self' = Raise (AttributeError "coords")
     /\ y self' = Raise (AttributeError "coords")
     /\ z self' = Raise (AttributeError "coords")
     /\ Taxonomy.MissingDependencyError (AttributeError "coords") = true)
  /\
  (forall self self',
     load_geometry fs self = Ok self' ->
     exists c f xs ys zs,
       read_geometry fs (surf_path self) = Ok (c, f)
       /\ coords self' = Some c
       /\ x self' = Ok xs /\ y self' = Ok ys /\ z self' = Ok zs
       /\ length xs = nrows c /\ length ys = nrows c /\ length zs = nrows c
       /\ forall i row, rows c !! i = Some row ->
            exists a b d, row = [a; b; d]
              /\ xs !! i = Some a /\ ys !! i = Some b /\ zs !! i = Some d).
Proof.
  split.
  - intros environ sid h sf self cs Hinit Hcs self'.
    assert (Hnone : coords self' = None).
    { apply coords_none_after; [|exact Hcs].
      unfold __init__ in Hinit.
      destruct (environ !! "SUBJECTS_DIR"%string); [|discriminate Hinit].
      injection Hinit as <-. reflexivity. }
    unfold x, y, z. rewrite Hnone. cbn. auto.
  - intros self self' Hload. unfold load_geometry in Hload.
    destruct (read_geometry fs (surf_path self)) as [[c f]|e] eqn:E;
      [|discriminate Hload].
    cbn [rbind fst snd] in Hload. injection Hload as <-.
    apply read_geometry_shape in E as [(_ & Hn & Hrows) _].
    destruct (columns_of_rows c Hn Hrows)
      as (xs & ys & zs & Hx & Hy & Hz & L1 & L2 & L3 & Hall).
    exists c, f, xs, ys, zs. unfold x, y, z. cbn [coords getattr rbind].
    auto 12.
Qed.

Lemma axis_views_witness :
  (exists self,
     __init__ environ_sample "bert" "lh" "inflated" = Ok self
     /\ x (after_all loadtxt_0_3 fs_sample self
             [LoadCurvature; LoadLabel "cortex"; ApplyXfm eye4])
        = Raise (AttributeError "coords"))
  /\
  (exists self self' xs,
     load_geometry fs_sample self = Ok self' /\ x self' = Ok xs).
Proof.
  split.
  - eexists. split; [vm_compute; reflexivity|].
    apply (proj1 (axis_views loadtxt_0_3 fs_sample)
             environ_sample "bert" "lh" "inflated" _
             [LoadCurvature; LoadLabel "cortex"; ApplyXfm eye4]).
    + vm_compute; reflexivity.
    + repeat constructor; discriminate.
  - destruct (proj2 (axis_views loadtxt_0_3 fs_sample) bert_fresh
                (after loadtxt_0_3 fs_sample bert_fresh LoadGeometry))
      as (c & f & xs & ys & zs & _ & _ & Hx & _).
    + vm_compute. reflexivity.
    + exists bert_fresh,
        (after loadtxt_0_3 fs_sample bert_fresh LoadGeometry), xs.
      split; [vm_compute; reflexivity|exact Hx].
Defined.

(** ** [apply_xfm] *)

Lemma length_zip_with_same {A B C} (f : A -> B -> C) l k :
  length l = length k -> length (zip_with f l k) = length l.
Proof. intros H. rewrite length_zip_with. lia. Qed.

Lemma np_c_ones_rows (c : array2 float) :
  np_c_ c (np_ones (nrows c)) =
    Ok (mkArray2 (S (ncols c))
          (map (fun r => r ++ [1%float]) (rows c))).
Proof.
  unfold np_c_, np_ones. rewrite length_replicate, Nat.eqb_refl.
  f_equal. f_equal. unfold nrows.
  induction (rows c) as [|r rs IH]; [reflexivity|].
  cbn [length replicate zip_with map]. f_equal. exact IH.
Qed.

Lemma nrows_transpose {A} (a : array2 A) : nrows (transpose a) = ncols a.
Proof.
  unfold nrows, transpose. cbn [rows]. rewrite length_map, length_seq.
  reflexivity.
Qed.

(** The shape of the transformed coordinates, and the success of the
    call, for a 4 x 4 matrix. *)
Lemma apply_xfm_ok self mtx c :
  coords self = Some c ->
  ncols c = 3%nat ->
  has_shape mtx 4 4 ->
  exists self' c',
    apply_xfm self mtx = Ok self' /\ coords self' = Some c'
    /\ has_shape c' (nrows c) 3.
Proof.
  intros Hc Hn (Hr4 & Hc4 & _).
  unfold apply_xfm. rewrite Hc. cbn [getattr rbind].
  rewrite np_c_ones_rows. cbn [rbind]. unfold np_dot. cbn [ncols].
  rewrite nrows_transpose, Hn, Hc4. cbn [Nat.eqb rbind].
  eexists _, _. split; [reflexivity|]. split; [reflexivity|].
  unfold has_shape, take_columns, nrows. cbn [rows ncols transpose].
  rewrite !length_map. split; [reflexivity|].
  fold (nrows mtx). rewrite Hr4. split; [reflexivity|].
  apply Forall_map, Forall_map, Forall_map, Forall_forall. intros r _.
  rewrite length_take, !length_map, length_seq. reflexivity.
Qed.

(** C10.  [apply_xfm] changes no attribute other than [coords]; with
    geometry loaded and a 4 x 4 matrix the call succeeds and the new
    [coords] has as many rows as before, each of three columns. *)
Theorem apply_xfm_frame self mtx c :
  coords self = Some c ->
  has_shape c (nrows c) 3 ->
  has_shape mtx 4 4 ->
  (exists self' c',
     apply_xfm self mtx = Ok self' /\ coords self' = Some c'
     /\ has_shape c' (nrows c) 3)
  /\
  (forall m self',
     apply_xfm self m = Ok self' ->
     faces self' = faces self /\ curv self' = curv self
     /\ bin_curv self' = bin_curv self /\ labels self' = labels self
     /\ subject_id self' = subject_id self /\ hemi self' = hemi self
     /\ surf self' = surf self /\ data_path self' = data_path self).
Proof.
  intros Hc (_ & Hn & _) Hm. split.
  - apply (apply_xfm_ok self mtx c Hc Hn Hm).
  - intros m self' H. unfold apply_xfm in H. rewrite Hc in H.
    cbn [getattr rbind] in H.
    destruct (np_c_ c (np_ones (nrows c))) as [h|]; [|discriminate H].
    cbn [rbind] in H.
    destruct (np_dot h (transpose m)) as [d|]; [|discriminate H].
    cbn [rbind] in H. injection H as <-. cbn. auto 10.
Qed.

Lemma apply_xfm_frame_witness :
  exists self' c',
    apply_xfm bert_sample eye4 = Ok self' /\ coords self' = Some c'
    /\ has_shape c' 2 3.
Proof.
  apply (apply_xfm_frame bert_sample eye4
           (mkArray2 3 [[1; 2; 3]; [-4; 0.5; 0]]%float)).
  - reflexivity.
  - unfold has_shape. repeat split. repeat constructor.
  - unfold has_shape. repeat split. repeat constructor.
Defined.

(** ** The three loads *)

Lemma put_ones_ok idx : forall a,
  Forall (fun i => - Z.of_nat (length a) <= i < Z.of_nat (length a)) idx ->
  exists v, put_ones a idx = Ok v.
Proof.
  induction idx as [|i idx IH]; intros a Hidx; [exists a; reflexivity|].
  inversion Hidx as [|? ? Hi Hrest]; subst. cbn [put_ones].
  destruct (Z.leb_spec (- Z.of_nat (length a)) i) as [_|]; [|lia].
  destruct (Z.ltb_spec i (Z.of_nat (length a))) as [_|]; [|lia].
  cbn [andb]. apply IH. rewrite length_insert. exact Hrest.
Qed.

Lemma x_loaded self c :
  coords self = Some c -> has_shape c (nrows c) 3 ->
  exists xs, x self = Ok xs /\ length xs = nrows c.
Proof.
  intros Hc (_ & Hn & Hrows).
  destruct (columns_of_rows c Hn Hrows) as (xs & _ & _ & Hx & _ & _ & L & _).
  exists xs. unfold x. rewrite Hc. cbn [getattr rbind]. auto.
Qed.

(** C9, the claim as stated: on a new object, with a label file whose
    decoding succeeds, [load_label] raises, because [len(self.x)] needs
    the geometry; having loaded the curvature does not help. *)
Lemma load_label_needs_geometry_counterexample :
  __init__ environ_sample "bert" "lh" "inflated" = Ok bert_fresh
  /\ read_label loadtxt_0_3 fs_sample (label_path bert_fresh "cortex")
     = Ok [0; 3]
  /\ load_label loadtxt_0_3 fs_sample bert_fresh "cortex"
     = Raise (AttributeError "coords")
  /\ load_label loadtxt_0_3 fs_sample
       (after loadtxt_0_3 fs_sample bert_fresh LoadCurvature) "cortex"
     = Raise (AttributeError "coords").
Proof. repeat split; vm_compute; reflexivity. Qed.

(** C9, as amended.  Whatever was loaded before: [load_geometry]
    succeeds when the surface file decodes, [load_curvature] succeeds
    when the curvature file decodes, and [load_label] succeeds when the
    label file decodes to indices in range and the geometry is loaded.
    Without geometry [load_label] does not succeed: when the label file
    decodes, the call raises [AttributeError] on [coords], the
    MissingDependencyError of the specification. *)
Theorem load_independence np_loadtxt (fs : filesystem) self :
  (forall cf, read_geometry fs (surf_path self) = Ok cf ->
     is_ok (load_geometry fs self) = true)
  /\ (forall a, read_curvature fs (curv_path self) = Ok a ->
        is_ok (load_curvature fs self) = true)
  /\ (forall name label c,
        coords self = Some c -> has_shape c (nrows c) 3 ->
        read_label np_loadtxt fs (label_path self name) = Ok label ->
        Forall (fun i => - Z.of_nat (nrows c) <= i < Z.of_nat (nrows c)) label ->
        is_ok (load_label np_loadtxt fs self name) = true)
  /\ (forall name, coords self = None ->
        is_ok (load_label np_loadtxt fs self name) = false
        /\ forall label,
             read_label np_loadtxt fs (label_path self name) = Ok label ->
             load_label np_loadtxt fs self name
             = Raise (AttributeError "coords")
             /\ Taxonomy.MissingDependencyError (AttributeError "coords")
                = true).
Proof.
  split; [|split; [|split]].
  - intros cf H. unfold load_geometry. rewrite H. reflexivity.
  - intros a H. unfold load_curvature. rewrite H. reflexivity.
  - intros name label c Hc Hshape Hlabel Hidx.
    destruct (x_loaded self c Hc Hshape) as (xs & Hx & Hlen).
    destruct (put_ones_ok label (np_zeros (length xs))) as (v & Hv).
    { unfold np_zeros. rewrite length_replicate, Hlen. exact Hidx. }
    unfold load_label. rewrite Hlabel. cbn [rbind]. rewrite Hx. cbn [rbind].
    rewrite Hv. reflexivity.
  - intros name Hnone. split.
    + unfold load_label.
      destruct (read_label np_loadtxt fs (label_path self name));
        [|reflexivity].
      cbn [rbind]. unfold x. rewrite Hnone. reflexivity.
    + intros label Hlabel. split; [|reflexivity].
      unfold load_label. rewrite Hlabel. cbn [rbind].
      unfold x. rewrite Hnone. reflexivity.
Qed.

Lemma load_independence_witness :
  is_ok (load_geometry fs_sample bert_sample) = true
  /\ is_ok (load_curvature fs_sample bert_fresh) = true
  /\ is_ok (load_label loadtxt_0_3 fs_sample
              (after loadtxt_0_3 fs_sample bert_fresh LoadGeometry) "cortex")
     = true
  /\ load_label loadtxt_0_3 fs_sample bert_fresh "cortex"
     = Raise (AttributeError "coords").
Proof.
  split; [|split; [|split]].
  - eapply (proj1 (load_independence loadtxt_0_3 fs_sample bert_sample)).
    vm_compute. reflexivity.
  - eapply (proj1 (proj2 (load_independence loadtxt_0_3 fs_sample bert_fresh))).
    vm_compute. reflexivity.
  - eapply (proj1 (proj2 (proj2 (load_independence loadtxt_0_3 fs_sample
              (after loadtxt_0_3 fs_sample bert_fresh LoadGeometry))))
              "cortex" [0; 3]).
    + vm_compute. reflexivity.
    + unfold has_shape. repeat split. repeat constructor.
    + vm_compute. reflexivity.
    + repeat constructor; vm_compute; discriminate.
  - refine (proj1 (proj2 (proj2 (proj2 (proj2
              (load_independence loadtxt_0_3 fs_sample bert_fresh)))
              "cortex" eq_refl) [0; 3] _)).
    vm_compute. reflexivity.
Defined.

(** ** The affine transformation in floating point *)

Lemma Prim2SF_one : Prim2SF 1%float = sf_one.
Proof. vm_compute. reflexivity. Qed.

Lemma Prim2SF_zero : Prim2SF 0%float = S754_zero false.
Proof. vm_compute. reflexivity. Qed.

Lemma shr_52 mx :
  SpecFloat.iter_pos shr_1 52
    (Build_shr_record (Zpos (Pos.mul mx 4503599627370496)) false false)
  = Build_shr_record (Zpos mx) false false.
Proof. rewrite Pos.mul_comm. reflexivity. Qed.

Lemma digits_52 mx :
  Zpos (digits2_pos (Pos.mul mx 4503599627370496))
  = Zpos (digits2_pos mx) + 52.
Proof. rewrite Pos.mul_comm. lazy [Pos.mul digits2_pos]. lia. Qed.

(** The product of a finite double and 1.0 is rounded to that double. *)
Lemma SFmul_one_finite s m e :
  SpecFloat.bounded prec emax m e = true ->
  SFmul prec emax (S754_finite s m e) sf_one = S754_finite s m e.
Proof.
  unfold SpecFloat.bounded, canonical_mantissa. intros H.
  apply andb_true_iff in H as [Hc He].
  apply Z.eqb_eq in Hc. apply Z.leb_le in He.
  unfold sf_one, SFmul, binary_round_aux, shr_fexp.
  cbn [Zdigits2 shr_record_of_loc]. rewrite digits_52.
  replace (Z.pos (digits2_pos m) + 52 + (e + -52))
    with (Z.pos (digits2_pos m) + e) by lia.
  rewrite Hc.
  replace (e - (e + -52)) with 52 by lia.
  cbn [shr]. rewrite shr_52.
  cbn [shr_m loc_of_shr_record round_nearest_even Zdigits2 shr_record_of_loc].
  replace (e + -52 + 52) with e by lia.
  rewrite Hc, Z.sub_diag. cbn [shr shr_m].
  rewrite xorb_false_r.
  destruct (Z.leb_spec e (emax - prec)); [reflexivity|lia].
Qed.

Lemma SFmul_one a :
  SpecFloat.valid_binary prec emax a = true -> sf_fin a = true ->
  SFmul prec emax a sf_one = a.
Proof.
  destruct a as [s|s| |s m e]; try discriminate; intros Hv _.
  - cbn. rewrite xorb_false_r. reflexivity.
  - apply SFmul_one_finite, Hv.
Qed.

Lemma SFmul_zero a :
  sf_fin a = true ->
  exists s, SFmul prec emax a (S754_zero false) = S754_zero s.
Proof. destruct a; try discriminate; intros _; eexists; reflexivity. Qed.

Lemma sf_same_refl a : sf_fin a = true -> sf_same a a.
Proof. destruct a; try discriminate; cbn; auto. Qed.

Lemma SFadd_zero_r a s :
  sf_fin a = true -> sf_same (SFadd prec emax a (S754_zero s)) a.
Proof.
  destruct a as [s'| | |]; try discriminate; intros _.
  - destruct s', s; exact I.
  - cbn. auto.
Qed.

Lemma SFadd_zero_l a s :
  sf_fin a = true -> sf_same (SFadd prec emax (S754_zero s) a) a.
Proof.
  destruct a as [s'| | |]; try discriminate; intros _.
  - destruct s, s'; exact I.
  - cbn. auto.
Qed.

Lemma sf_same_fin a b : sf_same a b -> sf_fin a = true.
Proof. destruct a, b; cbn; intros H; try reflexivity; destruct H. Qed.

(** Adding a zero keeps the value. *)
Lemma sf_same_add_zero a b s :
  sf_same a b -> sf_same (SFadd prec emax a (S754_zero s)) b.
Proof.
  destruct a as [sa| | |sa ma ea], b as [sb| | |sb mb eb];
    cbn [sf_same]; intros H; try contradiction.
  - destruct sa, s; exact I.
  - exact H.
Qed.

Lemma is_finite_sf_fin v : is_finite v = true -> sf_fin (Prim2SF v) = true.
Proof.
  unfold is_finite, is_nan, is_infinity.
  rewrite !FloatAxioms.eqb_spec, abs_spec.
  change (Prim2SF infinity) with (S754_infinity false).
  destruct (Prim2SF v) as [s|s| |s m e]; try reflexivity.
  - destruct s; discriminate.
  - discriminate.
Qed.

Lemma sf_same_eqb a b :
  sf_same (Prim2SF a) (Prim2SF b) -> (a =? b)%float = true.
Proof.
  rewrite FloatAxioms.eqb_spec.
  destruct (Prim2SF a) as [s| | |s m e], (Prim2SF b) as [s'| | |s' m' e'];
    cbn; try (intros []; fail); try reflexivity.
  intros (<- & <- & <-). unfold SFeqb, SFcompare.
  rewrite Z.compare_refl, Pos.compare_cont_refl. destruct s; reflexivity.
Qed.

(** The three inner products of a finite vertex with the rows of the
    identity matrix. *)
Lemma inner_identity x y z :
  is_finite x = true -> is_finite y = true -> is_finite z = true ->
  sf_same (Prim2SF (inner [x; y; z; 1%float] [1; 0; 0; 0]%float)) (Prim2SF x)
  /\ sf_same (Prim2SF (inner [x; y; z; 1%float] [0; 1; 0; 0]%float)) (Prim2SF y)
  /\ sf_same (Prim2SF (inner [x; y; z; 1%float] [0; 0; 1; 0]%float)) (Prim2SF z).
Proof.
  intros Hx Hy Hz.
  apply is_finite_sf_fin in Hx, Hy, Hz.
  pose proof (Prim2SF_valid x) as Vx.
  pose proof (Prim2SF_valid y) as Vy.
  pose proof (Prim2SF_valid z) as Vz.
  unfold inner. cbn [zip zip_with fold_left fst snd].
  rewrite !add_spec, !mul_spec, Prim2SF_one, Prim2SF_zero.
  unfold SF64add, SF64mul.
  rewrite !(SFmul_one _) by assumption.
  destruct (SFmul_zero _ Hx) as (sx & ->).
  destruct (SFmul_zero _ Hy) as (sy & ->).
  destruct (SFmul_zero _ Hz) as (sz & ->).
  change (SFmul prec emax sf_one (S754_zero false)) with (S754_zero false).
  split; [|split].
  - do 3 apply sf_same_add_zero. apply SFadd_zero_l, Hx.
  - do 2 apply sf_same_add_zero.
    destruct sx; apply SFadd_zero_l, Hy.
  - apply sf_same_add_zero.
    destruct sx, sy; apply SFadd_zero_l, Hz.
Qed.

Lemma transpose_transpose_4x4 {A} (mtx : array2 A) :
  has_shape mtx 4 4 -> rows (transpose (transpose mtx)) = rows mtx.
Proof.
  destruct mtx as [nc rs]. unfold has_shape, nrows. cbn [rows ncols].
  intros (Hr & -> & Hrows).
  destruct rs as [|r0 [|r1 [|r2 [|r3 [|]]]]]; try discriminate Hr.
  inversion Hrows as [|? ? H0 Hrows1]; subst.
  inversion Hrows1 as [|? ? H1 Hrows2]; subst.
  inversion Hrows2 as [|? ? H2 Hrows3]; subst.
  inversion Hrows3 as [|? ? H3 _]; subst.
  destruct r0 as [|? [|? [|? [|? [|]]]]]; try discriminate H0.
  destruct r1 as [|? [|? [|? [|? [|]]]]]; try discriminate H1.
  destruct r2 as [|? [|? [|? [|? [|]]]]]; try discriminate H2.
  destruct r3 as [|? [|? [|? [|? [|]]]]]; try discriminate H3.
  reflexivity.
Qed.

(** What the code computes is the transformation of the specification,
    vertex by vertex. *)
Lemma apply_xfm_rows self mtx c :
  coords self = Some c ->
  ncols c = 3%nat ->
  has_shape mtx 4 4 ->
  exists self',
    apply_xfm self mtx = Ok self'
    /\ coords self' = Some (mkArray2 3 (map (xfm_spec mtx) (rows c))).
Proof.
  intros Hc Hn Hm. pose proof Hm as (Hr4 & Hc4 & _).
  unfold apply_xfm. rewrite Hc. cbn [getattr rbind].
  rewrite np_c_ones_rows. cbn [rbind]. unfold np_dot. cbn [ncols].
  rewrite nrows_transpose, Hn, Hc4. cbn [Nat.eqb rbind].
  eexists. split; [reflexivity|]. cbn [coords]. f_equal.
  unfold take_columns. cbn [rows ncols].
  rewrite (transpose_transpose_4x4 mtx Hm), !map_map.
  unfold transpose at 1. cbn [ncols]. rewrite Hr4. reflexivity.
Qed.

(** C8, as amended.  With geometry loaded and a 4 x 4 matrix,
    [apply_xfm] replaces the coordinates of every vertex by the first
    three components of [x, y, z, 1] multiplied by the transpose of the
    matrix.  With the identity matrix every coordinate of a mesh whose
    coordinates are all finite keeps its value, in the sense of the
    floating-point comparison [==]. *)
Theorem apply_xfm_affine self mtx c :
  coords self = Some c ->
  has_shape c (nrows c) 3 ->
  has_shape mtx 4 4 ->
  exists self' c',
    apply_xfm self mtx = Ok self' /\ coords self' = Some c'
    /\ rows c' = map (xfm_spec mtx) (rows c)
    /\ (mtx = eye4 ->
        Forall (Forall (fun v => is_finite v = true)) (rows c) ->
        Forall2 (Forall2 (fun a b => (a =? b)%float = true))
          (rows c') (rows c)).
Proof.
  intros Hc (_ & Hn & Hrows) Hm.
  destruct (apply_xfm_rows self mtx c Hc Hn Hm) as (self' & Hx & Hc').
  eexists self', _. split; [exact Hx|]. split; [exact Hc'|].
  cbn [rows]. split; [reflexivity|].
  intros -> Hfin. clear Hx Hc' Hm Hc.
  induction Hrows as [|r rs Hr _ IH]; [constructor|].
  inversion Hfin as [|? ? Hfr Hfrs]; subst.
  cbn [map]. constructor; [|apply IH, Hfrs].
  destruct r as [|vx [|vy [|vz [|]]]]; try discriminate Hr.
  inversion Hfr as [|? ? Fx Hfr1]; subst.
  inversion Hfr1 as [|? ? Fy Hfr2]; subst.
  inversion Hfr2 as [|? ? Fz _]; subst.
  destruct (inner_identity vx vy vz Fx Fy Fz) as (Ex & Ey & Ez).
  unfold xfm_spec, eye4. cbn [rows map app take firstn].
  repeat constructor; apply sf_same_eqb; assumption.
Qed.

Lemma apply_xfm_affine_witness :
  exists self' c',
    apply_xfm bert_sample eye4 = Ok self' /\ coords self' = Some c'
    /\ Forall2 (Forall2 (fun a b => (a =? b)%float = true))
         (rows c') [[1; 2; 3]; [-4; 0.5; 0]]%float.
Proof.
  destruct (apply_xfm_affine bert_sample eye4
              (mkArray2 3 [[1; 2; 3]; [-4; 0.5; 0]]%float))
    as (self' & c' & Hx & Hc' & _ & Hid).
  - reflexivity.
  - unfold has_shape. repeat split. repeat constructor.
  - unfold has_shape. repeat split. repeat constructor.
  - exists self', c'. split; [exact Hx|]. split; [exact Hc'|].
    apply Hid; [reflexivity|]. repeat constructor.
Defined.

(** C8, the claim as stated: with the identity matrix, a vertex with an
    infinite x coordinate gets NaN in place of its y and z coordinates,
    which were 0; and a negative zero comes back as a positive zero. *)
Lemma apply_xfm_identity_counterexample :
  (exists self',
     apply_xfm bert_infinite eye4 = Ok self'
     /\ coords self' = Some (mkArray2 3 [[infinity; nan; nan]]))
  /\ (nan =? 0)%float = false
  /\ (exists self',
        apply_xfm bert_neg_zero eye4 = Ok self'
        /\ coords self' = Some (mkArray2 3 [[0; 1; 2]]%float))
  /\ Prim2SF 0 <> Prim2SF neg_zero.
Proof.
  split; [|split; [|split]].
  - eexists. split; vm_compute; reflexivity.
  - vm_compute. reflexivity.
  - eexists. split; vm_compute; reflexivity.
  - vm_compute. discriminate.
Qed.

(** * Further properties of the module *)

(** ** [_fread3] *)

(** X1.  [_fread3] needs three bytes: with fewer left it raises
    [ValueError]; otherwise it consumes exactly three and returns
    b1*65536 + b2*256 + b3, a number from 0 to 2^24 - 1 (never
    negative: the three bytes are not sign-extended). *)
Theorem fread3_total (s : stream) :
  match rest s with
  | b1 :: b2 :: b3 :: _ =>
      _fread3 s =
        (Ok (byte_val b1 * 65536 + byte_val b2 * 256 + byte_val b3),
         advance 3 s)
      /\ 0 <= byte_val b1 * 65536 + byte_val b2 * 256 + byte_val b3 < 2 ^ 24
  | _ => fst (_fread3 s) = Raise (ValueError "need more values to unpack")
  end.
Proof.
  destruct (rest s) as [|b1 [|b2 [|b3 tl]]] eqn:E.
  - unfold _fread3, fromfile_u1, bind, np_fromfile. rewrite E. reflexivity.
  - unfold _fread3, fromfile_u1, bind, np_fromfile. rewrite E. reflexivity.
  - unfold _fread3, fromfile_u1, bind, np_fromfile. rewrite E. reflexivity.
  - split; [apply (fread3_cons b1 b2 b3 tl s E)|].
    pose proof (byte_val_range b1). pose proof (byte_val_range b2).
    pose proof (byte_val_range b3). lia.
Qed.

(** ** [read_geometry] *)

Lemma line_length_line line tl :
  Forall (fun b => b <> newline) line ->
  line_length (line ++ newline :: tl) = S (length line).
Proof.
  induction 1 as [|b line Hb _ IH]; [reflexivity|].
  cbn [app line_length length].
  destruct (Byte.eqb b "010") eqn:E.
  - apply Byte.byte_dec_bl in E. contradiction.
  - rewrite IH. reflexivity.
Qed.

Lemma readline_line line tl s :
  Forall (fun b => b <> newline) line ->
  rest s = line ++ newline :: tl ->
  exists s', readline s = (Ok (line ++ [newline]), s') /\ rest s' = tl.
Proof.
  intros Hline Hrest. unfold readline. rewrite Hrest, line_length_line by assumption.
  eexists. split.
  - f_equal. f_equal.
    change (line ++ newline :: tl) with (line ++ [newline] ++ tl).
    rewrite app_assoc.
    apply take_app_length'. rewrite length_app. simpl. lia.
  - rewrite rest_advance, Hrest.
    change (line ++ newline :: tl) with (line ++ [newline] ++ tl).
    rewrite app_assoc.
    apply drop_app_length'. rewrite length_app. simpl. lia.
Qed.

Lemma be_f4_enc u : uint32 u -> be_f4 (enc_be 4 u) = f4_of_bits u.
Proof.
  intros Hu. unfold be_f4. rewrite be_uint_enc_be.
  change (256 ^ Z.of_nat 4) with (2 ^ 32).
  rewrite Z.mod_small by exact Hu. reflexivity.
Qed.

Lemma fromfile_f4_enc bits tl s :
  Forall uint32 bits ->
  rest s = concat (map (enc_be 4) bits) ++ tl ->
  exists s', fromfile_f4 (Z.of_nat (length bits)) s
               = (Ok (map f4_of_bits bits), s')
             /\ rest s' = tl.
Proof.
  intros Hv Hrest. unfold fromfile_f4, bind.
  destruct (np_fromfile_concat 4 (map (enc_be 4) bits) tl s) as (s' & E & Hs').
  - discriminate.
  - apply Forall_map, Forall_forall. intros v _. apply length_enc_be.
  - exact Hrest.
  - rewrite length_map in E. rewrite E. exists s'. split; [|exact Hs'].
    unfold ret. f_equal. f_equal. rewrite map_map.
    apply map_ext_Forall.
    eapply Forall_impl; [exact Hv|]. intros v Hi. apply be_f4_enc, Hi.
Qed.

(** Stepping over the head of a surface file. *)
Lemma read_geometry_head {A} (k : Z -> Z -> M A) stamp comment vnum fnum tl s :
  Forall (fun b => b <> newline) stamp ->
  Forall (fun b => b <> newline) comment ->
  int32 vnum -> int32 fnum ->
  rest s = geom_head stamp comment vnum fnum ++ tl ->
  exists s',
    rest s' = tl /\
    (let* magic := _fread3 in
     if magic =? 16777215 then
       raise (NotImplementedError
                "Quadrangle surface format reading not implemented")
     else if negb (magic =? 16777214) then
       raise (ValueError "File does not appear to be a Freesurfer surface")
     else
       let* create_stamp := readline in
       let* _ := readline in
       let* vnum := fromfile_i4_0 in
       let* fnum := fromfile_i4_0 in
       k vnum fnum) s = k vnum fnum s'.
Proof.
  intros Hst Hco Hv Hf Hrest. unfold geom_head in Hrest.
  rewrite <- !app_assoc in Hrest. cbn [app] in Hrest.
  rewrite (bind_ok _ _ _ _ _ (fread3_cons _ _ _ _ _ Hrest)).
  change (byte_val "255" * 65536 + byte_val "255" * 256 + byte_val "254")
    with 16777214.
  cbn [Z.eqb Pos.eqb negb].
  assert (R0 : rest (advance 3 s)
               = stamp ++ newline :: comment ++ newline
                 :: enc_i4 vnum ++ enc_i4 fnum ++ tl).
  { rewrite rest_advance, Hrest. reflexivity. }
  destruct (readline_line _ _ _ Hst R0) as (s1 & E1 & R1).
  destruct (readline_line _ _ _ Hco R1) as (s2 & E2 & R2).
  destruct (fromfile_i4_0_enc _ _ _ Hv R2) as (s3 & E3 & R3).
  destruct (fromfile_i4_0_enc _ _ _ Hf R3) as (s4 & E4 & R4).
  exists s4. split; [exact R4|].
  rewrite (bind_ok _ _ _ _ _ E1), (bind_ok _ _ _ _ _ E2),
    (bind_ok _ _ _ _ _ E3), (bind_ok _ _ _ _ _ E4). reflexivity.
Qed.

Lemma items_rows {A} (n : nat) (rws : list (list A)) :
  Forall (fun r => length r = n) rws ->
  items n (length rws) (concat rws) = rws.
Proof.
  intros H. rewrite <- (app_nil_r (concat rws)). apply items_concat, H.
Qed.

(** X2.  Round trip of a surface file: a file written with the magic
    number 16777214, two text lines, the vertex and face counts, the
    vertex rows and the face rows is decoded to exactly these rows, the
    vertices as the values of their [float32] patterns, whatever
    follows in the file. *)
Theorem read_geometry_round_trip (fs : filesystem) filepath stamp comment
    vertices faces tl :
  Forall (fun b => b <> newline) stamp ->
  Forall (fun b => b <> newline) comment ->
  Forall (fun r => length r = 3%nat) vertices ->
  Forall (fun r => length r = 3%nat) faces ->
  Forall uint32 (concat vertices) ->
  Forall int32 (concat faces) ->
  int32 (Z.of_nat (length vertices)) ->
  int32 (Z.of_nat (length faces)) ->
  fs !! filepath = Some (geom_file stamp comment vertices faces ++ tl) ->
  read_geometry fs filepath
  = Ok (mkArray2 3 (map (map f4_of_bits) vertices), mkArray2 3 faces).
Proof.
  intros Hst Hco Hv3 Hf3 Hvb Hfb Hvn Hfn Hfs.
  unfold read_geometry, with_open. rewrite Hfs.
  assert (R0 : rest (open_stream (geom_file stamp comment vertices faces ++ tl))
               = geom_head stamp comment (Z.of_nat (length vertices))
                   (Z.of_nat (length faces))
                 ++ concat (map (enc_be 4) (concat vertices))
                 ++ concat (map enc_i4 (concat faces)) ++ tl).
  { rewrite rest_open_stream. unfold geom_file, geom_head.
    rewrite <- !app_assoc. reflexivity. }
  edestruct (read_geometry_head (A := array2 float * array2 Z))
    as (s1 & R1 & E1); [exact Hst | exact Hco | exact Hvn | exact Hfn | exact R0 |].
  rewrite E1. clear E1.
  assert (Lv : length (concat vertices) = (length vertices * 3)%nat)
    by (apply length_concat_uniform, Hv3).
  assert (Lf : length (concat faces) = (length faces * 3)%nat)
    by (apply length_concat_uniform, Hf3).
  destruct (fromfile_f4_enc _ _ _ Hvb R1) as (s2 & E2 & R2).
  replace (Z.of_nat (length vertices) * 3)
    with (Z.of_nat (length (concat vertices))) by lia.
  rewrite (bind_ok _ _ _ _ _ E2).
  unfold bind at 1, lift at 1.
  rewrite reshape_ok by (rewrite ?length_map, ?Nat2Z.id; lia).
  destruct (fromfile_i4_enc _ _ _ Hfb R2) as (s3 & E3 & R3).
  replace (Z.of_nat (length faces) * 3)
    with (Z.of_nat (length (concat faces))) by lia.
  rewrite (bind_ok _ _ _ _ _ E3).
  unfold bind at 1, lift at 1.
  rewrite reshape_ok by (rewrite ?Nat2Z.id; lia).
  cbn [ret fst]. rewrite !Nat2Z.id.
  rewrite concat_map.
  rewrite <- (length_map (map f4_of_bits) vertices) at 1.
  rewrite items_rows.
  2: { apply Forall_map. eapply Forall_impl; [exact Hv3|].
       intros r Hr. cbn. rewrite length_map. exact Hr. }
  rewrite items_rows by exact Hf3. reflexivity.
Qed.

Lemma read_geometry_round_trip_witness :
  read_geometry
    {["lh.white"%string :=
        geom_file ["c"; "r"]%byte []
          [[1065353216; 0; 1073741824]; [0; 0; 3212836864]] [[0; 1; 1]]
        ++ ["007"%byte]]}
    "lh.white"
  = Ok (mkArray2 3
          (map (map f4_of_bits)
             [[1065353216; 0; 1073741824]; [0; 0; 3212836864]]),
        mkArray2 3 [[0; 1; 1]]).
Proof.
  apply (read_geometry_round_trip _ "lh.white" ["c"; "r"]%byte []
           [[1065353216; 0; 1073741824]; [0; 0; 3212836864]] [[0; 1; 1]]
           ["007"%byte]).
  - repeat constructor; discriminate.
  - constructor.
  - repeat constructor.
  - repeat constructor.
  - repeat constructor; unfold uint32; simpl; lia.
  - repeat constructor; unfold int32; simpl; lia.
  - simpl. int32_tac.
  - simpl. int32_tac.
  - reflexivity.
Defined.

(** X3.  Whatever the file, a result of the geometry decoder has three
    columns in both arrays and every row has three elements: the vertex
    array is (vertex count, 3), the face array (face count, 3). *)
Theorem read_geometry_columns (fs : filesystem) filepath c f :
  read_geometry fs filepath = Ok (c, f) ->
  ncols c = 3%nat /\ Forall (fun row => length row = 3%nat) (rows c)
  /\ ncols f = 3%nat /\ Forall (fun row => length row = 3%nat) (rows f).
Proof.
  intros H. apply read_geometry_shape in H as [(_ & Hc & Hcr) (_ & Hf & Hfr)].
  repeat split; assumption.
Qed.

Lemma read_geometry_columns_witness :
  read_geometry
    {["lh.white"%string :=
        geom_file [] [] [[1065353216; 0; 1073741824]] [] ++ []]}
    "lh.white"
  = Ok (mkArray2 3 (map (map f4_of_bits) [[1065353216; 0; 1073741824]]),
        mkArray2 3 [])
  /\ Forall (fun row => length row = 3%nat)
       (map (map f4_of_bits) [[1065353216; 0; 1073741824]]).
Proof.
  assert (H : read_geometry
                {["lh.white"%string :=
                    geom_file [] [] [[1065353216; 0; 1073741824]] [] ++ []]}
                "lh.white"
              = Ok (mkArray2 3
                      (map (map f4_of_bits) [[1065353216; 0; 1073741824]]),
                    mkArray2 3 []))
    by (vm_compute; reflexivity).
  split; [exact H|].
  exact (proj1 (proj2 (read_geometry_columns _ _ _ _ H))).
Defined.

Lemma length_items_le {A} (size n : nat) : forall l : list A,
  (length (items size n l) * size <= length l)%nat.
Proof.
  induction n as [|n IH]; intros l; cbn [items]; [simpl; lia|].
  destruct (Nat.leb_spec size (length l)) as [Hle|_]; [|simpl; lia].
  cbn [length]. specialize (IH (drop size l)).
  rewrite length_drop in IH. lia.
Qed.

(** X4.  A surface file that ends before the vertex data it declares
    is complete is refused: when fewer than 12 * vnum bytes follow the
    two counts, the decoder raises [ValueError] from the reshape and
    returns nothing. *)
Theorem read_geometry_truncated (fs : filesystem) filepath stamp comment
    vnum fnum body :
  Forall (fun b => b <> newline) stamp ->
  Forall (fun b => b <> newline) comment ->
  int32 vnum -> int32 fnum ->
  0 < vnum ->
  Z.of_nat (length body) < 12 * vnum ->
  fs !! filepath = Some (geom_head stamp comment vnum fnum ++ body) ->
  read_geometry fs filepath
  = Raise (ValueError "total size of new array must be unchanged").
Proof.
  intros Hst Hco Hv Hf Hpos Hshort Hfs.
  unfold read_geometry, with_open. rewrite Hfs.
  edestruct (read_geometry_head (A := array2 float * array2 Z))
    as (s1 & R1 & E1);
    [exact Hst | exact Hco | exact Hv | exact Hf | apply rest_open_stream |].
  rewrite E1. clear E1.
  unfold fromfile_f4, np_fromfile, bind, ret, lift. rewrite R1.
  destruct (Z.ltb_spec (vnum * 3) 0) as [|_]; [lia|].
  unfold reshape.
  destruct (Z.ltb_spec vnum 0) as [|_]; [lia|].
  rewrite length_map.
  pose proof (length_items_le 4 (Z.to_nat (vnum * 3)) body) as Hle.
  destruct (Nat.eqb_spec (length (items 4 (Z.to_nat (vnum * 3)) body))
              (Z.to_nat vnum * 3)) as [Heq|_]; [lia|].
  reflexivity.
Qed.

Lemma read_geometry_truncated_witness :
  read_geometry
    {["lh.white"%string :=
        geom_head [] [] 2 0 ++ enc_i4 0 ++ enc_i4 0 ++ enc_i4 0 ++ enc_i4 0]}
    "lh.white"
  = Raise (ValueError "total size of new array must be unchanged").
Proof.
  apply (read_geometry_truncated _ "lh.white" [] [] 2 0
           (enc_i4 0 ++ enc_i4 0 ++ enc_i4 0 ++ enc_i4 0)).
  - constructor.
  - constructor.
  - int32_tac.
  - int32_tac.
  - lia.
  - simpl. lia.
  - reflexivity.
Defined.

(** ** [read_curvature] *)

Lemma items_prefix {A} (size : nat) (chunks : list (list A)) tl : forall n,
  size <> O ->
  Forall (fun c => length c = size) chunks ->
  length chunks = n \/ ((length chunks < n)%nat /\ (length tl < size)%nat) ->
  items size n (concat chunks ++ tl) = chunks.
Proof.
  intros n Hsize Hall. revert n.
  induction Hall as [|c chunks Hc _ IH]; intros n Hn.
  - destruct Hn as [<-|[Hlt Htl]]; [reflexivity|].
    destruct n; [reflexivity|]. cbn [concat app items].
    destruct (Nat.leb_spec size (length tl)); [lia|reflexivity].
  - destruct n as [|n]; [cbn [length] in Hn; lia|].
    cbn [concat items]. rewrite <- app_assoc.
    assert (Hle : (size <=? length (c ++ concat chunks ++ tl))%nat = true).
    { apply Nat.leb_le. rewrite length_app. lia. }
    rewrite Hle. subst size.
    rewrite take_app_length, drop_app_length, IH; [reflexivity|].
    cbn [length] in Hn. lia.
Qed.

(** X5.  A new-format curvature file is decoded to the [float32] values
    it holds, in order.  The decoder does not check the count: a file
    that ends after fewer values than it declares gives the values that
    are there, without an exception. *)
Theorem read_curvature_new (fs : filesystem) filepath vnum fnum
    vals_per_vertex bits tl :
  int32 vnum -> int32 fnum -> int32 vals_per_vertex ->
  Forall uint32 bits ->
  Z.of_nat (length bits) = vnum
  \/ (Z.of_nat (length bits) < vnum /\ (length tl < 4)%nat) ->
  fs !! filepath = Some (curv_new vnum fnum vals_per_vertex bits ++ tl) ->
  read_curvature fs filepath = Ok (FloatArray f4 (map f4_of_bits bits)).
Proof.
  intros Hv Hf Hp Hbits Hcount Hfs.
  unfold read_curvature, with_open. rewrite Hfs.
  assert (R0 : rest (open_stream (curv_new vnum fnum vals_per_vertex bits ++ tl))
               = "255"%byte :: "255"%byte :: "255"%byte
                 :: concat (map enc_i4 [vnum; fnum; vals_per_vertex])
                    ++ concat (map (enc_be 4) bits) ++ tl).
  { rewrite rest_open_stream. unfold curv_new. cbn [map concat app].
    rewrite <- !app_assoc. reflexivity. }
  rewrite (bind_ok _ _ _ _ _ (fread3_cons _ _ _ _ _ R0)).
  change (byte_val "255" * 65536 + byte_val "255" * 256 + byte_val "255")
    with 16777215.
  cbn [Z.eqb Pos.eqb].
  assert (R1 : rest (advance 3 (open_stream
                 (curv_new vnum fnum vals_per_vertex bits ++ tl)))
               = concat (map enc_i4 [vnum; fnum; vals_per_vertex])
                 ++ concat (map (enc_be 4) bits) ++ tl).
  { rewrite rest_advance, R0. reflexivity. }
  assert (H3 : Forall int32 [vnum; fnum; vals_per_vertex])
    by (constructor; [exact Hv|constructor; [exact Hf|constructor; [exact Hp|constructor]]]).
  destruct (fromfile_i4_enc [vnum; fnum; vals_per_vertex] _ _ H3 R1)
    as (s2 & E2 & R2).
  change 3 with (Z.of_nat (length [vnum; fnum; vals_per_vertex])).
  rewrite (bind_ok _ _ _ _ _ E2).
  unfold bind at 1, lift at 1. cbn [item0].
  unfold fromfile_f4, np_fromfile, bind, ret. rewrite R2.
  destruct (Z.ltb_spec vnum 0) as [|_]; [lia|].
  cbn [fst]. f_equal. f_equal.
  rewrite items_prefix.
  - rewrite map_map. apply map_ext_Forall.
    eapply Forall_impl; [exact Hbits|]. intros u Hu. apply be_f4_enc, Hu.
  - discriminate.
  - apply Forall_map, Forall_forall. intros u _. apply length_enc_be.
  - rewrite length_map. destruct Hcount as [Heq|[Hlt Htl]]; [left|right]; lia.
Qed.

Lemma read_curvature_new_witness :
  read_curvature
    {["lh.curv"%string := curv_new 3 0 1 [1065353216; 3212836864] ++ ["000"%byte]]}
    "lh.curv"
  = Ok (FloatArray f4 (map f4_of_bits [1065353216; 3212836864])).
Proof.
  apply (read_curvature_new _ "lh.curv" 3 0 1 [1065353216; 3212836864]
           ["000"%byte]).
  - int32_tac.
  - int32_tac.
  - int32_tac.
  - repeat constructor; unfold uint32; simpl; lia.
  - right. simpl. lia.
  - reflexivity.
Defined.

Lemma read_curvature_old_witness :
  read_curvature {["lh.curv"%string := curv_old 2 0 [250; -1] ++ []]} "lh.curv"
  = Ok (IntArray i2 (map (fun v => v / 100) [250; -1])).
Proof.
  apply (read_curvature_old _ "lh.curv" 2 0 [250; -1] []).
  - lia.
  - lia.
  - lia.
  - repeat constructor; simpl; lia.
  - reflexivity.
  - reflexivity.
Defined.

(** ** [read_annot] *)

Lemma read_annot_too_many_entries_witness :
  read_annot
    {["lh.aparc.annot"%string :=
        annot_head 0 [] ++ enc_i4 1
        ++ ctab_v2 0 ["A"; "000"]%byte [mkEntry 0 ["000"]%byte 10 20 30 0]
        ++ []]}
    "lh.aparc.annot"
  = Raise IndexError.
Proof.
  apply (read_annot_too_many_entries _ "lh.aparc.annot" 0 [] 1 0
           ["A"; "000"]%byte [mkEntry 0 ["000"]%byte 10 20 30 0] []).
  - unfold annot_head_ok. repeat split; try lia. constructor.
  - int32_tac.
  - lia.
  - int32_tac.
  - lia.
  - discriminate.
  - simpl. int32_tac.
  - repeat constructor; simpl; try lia; discriminate.
  - simpl. int32_tac.
  - simpl. lia.
  - reflexivity.
Defined.

(** X8.  A colour table that declares a negative number of entries
    makes the annotation decoder raise [ValueError] (from the allocation
    of the table); nothing is returned. *)
Theorem read_annot_negative_entries (fs : filesystem) filepath vnum data
    ctab_exists n_entries tl :
  annot_head_ok vnum data ->
  int32 ctab_exists -> ctab_exists <> 0 ->
  int32 n_entries -> n_entries < 0 ->
  fs !! filepath =
    Some (annot_head vnum data ++ enc_i4 ctab_exists ++ enc_i4 (-2)
          ++ enc_i4 n_entries ++ tl) ->
  read_annot fs filepath
  = Raise (ValueError "negative dimensions are not allowed").
Proof.
  intros Hhead Hflag Hex Hn Hneg Hfs.
  unfold read_annot, with_open. rewrite Hfs.
  edestruct (read_annot_head (A := option (array2 Z))) as (s1 & R1 & E1);
    [exact Hhead | apply rest_open_stream | ].
  rewrite E1. clear E1.
  destruct (fromfile_i4_0_enc _ _ s1 Hflag R1) as (s2 & E2 & R2).
  rewrite (bind_ok _ _ _ _ _ E2).
  destruct (Z.eqb_spec ctab_exists 0) as [|_]; [congruence|].
  destruct (fromfile_i4_0_enc (-2) _ s2 ltac:(unfold int32; lia) R2)
    as (s3 & E3 & R3).
  rewrite (bind_ok _ _ _ _ _ E3). cbn [Z.eqb Pos.eqb negb].
  destruct (fromfile_i4_0_enc _ _ s3 Hn R3) as (s4 & E4 & R4).
  rewrite (bind_ok _ _ _ _ _ E4).
  unfold bind at 1, lift at 1, np_zeros2.
  destruct (Z.ltb_spec n_entries 0) as [_|]; [reflexivity|lia].
Qed.

Lemma read_annot_negative_entries_witness :
  read_annot
    {["lh.aparc.annot"%string :=
        annot_head 0 [] ++ enc_i4 1 ++ enc_i4 (-2) ++ enc_i4 (-5) ++ []]}
    "lh.aparc.annot"
  = Raise (ValueError "negative dimensions are not allowed").
Proof.
  apply (read_annot_negative_entries _ "lh.aparc.annot" 0 [] 1 (-5) []).
  - unfold annot_head_ok. repeat split; try lia. constructor.
  - int32_tac.
  - lia.
  - int32_tac.
  - lia.
  - reflexivity.
Defined.

(** X9.  An annotation file that ends before the vnum (vertex, value)
    pairs it declares are complete is refused with [ValueError] (from
    the reshape), also when it has no colour table. *)
Theorem read_annot_truncated (fs : filesystem) filepath vnum body :
  int32 vnum -> 0 < vnum ->
  Z.of_nat (length body) < 8 * vnum ->
  fs !! filepath = Some (enc_i4 vnum ++ body) ->
  read_annot fs filepath
  = Raise (ValueError "total size of new array must be unchanged").
Proof.
  intros Hv Hpos Hshort Hfs.
  unfold read_annot, with_open. rewrite Hfs.
  destruct (fromfile_i4_0_enc vnum body (open_stream (enc_i4 vnum ++ body)) Hv
              (rest_open_stream _)) as (s1 & E1 & R1).
  rewrite (bind_ok _ _ _ _ _ E1).
  unfold fromfile_i4, np_fromfile, bind, ret, lift. rewrite R1.
  destruct (Z.ltb_spec (vnum * 2) 0) as [|_]; [lia|].
  unfold reshape.
  destruct (Z.ltb_spec vnum 0) as [|_]; [lia|].
  rewrite length_map.
  pose proof (length_items_le 4 (Z.to_nat (vnum * 2)) body) as Hle.
  destruct (Nat.eqb_spec (length (items 4 (Z.to_nat (vnum * 2)) body))
              (Z.to_nat vnum * 2)) as [Heq|_]; [lia|].
  reflexivity.
Qed.

Lemma read_annot_truncated_witness :
  read_annot {["lh.aparc.annot"%string := enc_i4 1 ++ enc_i4 7]}
    "lh.aparc.annot"
  = Raise (ValueError "total size of new array must be unchanged").
Proof.
  apply (read_annot_truncated _ "lh.aparc.annot" 1 (enc_i4 7)).
  - int32_tac.
  - lia.
  - simpl. lia.
  - reflexivity.
Defined.

(** The table that the decoder returns for a file with a colour table
    of version -2 that stores no more entries than it declares: one row
    per stored entry, then rows of zeros. *)
Lemma read_annot_table (fs : filesystem) filepath vnum data
    ctab_exists n_entries path entries tl :
  annot_head_ok vnum data ->
  int32 ctab_exists -> ctab_exists <> 0 ->
  int32 n_entries ->
  path <> [] -> int32 (Z.of_nat (length path)) ->
  Forall entry_ok entries ->
  Z.of_nat (length entries) <= n_entries ->
  fs !! filepath =
    Some (annot_head vnum data ++ enc_i4 ctab_exists
          ++ ctab_v2 n_entries path entries ++ tl) ->
  read_annot fs filepath
  = Ok (Some (mkArray2 5
                (map entry_row entries
                 ++ replicate (Z.to_nat n_entries - length entries)
                      (replicate 5 0)))).
Proof.
  intros Hhead Hflag Hex Hn Hpath Hplen Hes Hle Hfs.
  set (n := Z.to_nat n_entries).
  set (k := length entries).
  assert (Hen : int32 (Z.of_nat k)) by (unfold int32 in *; lia).
  unfold read_annot, with_open. rewrite Hfs.
  edestruct (read_annot_head (A := option (array2 Z))) as (s1 & R1 & E1);
    [exact Hhead | apply rest_open_stream | ].
  rewrite E1. clear E1.
  unfold ctab_v2 in R1. rewrite <- !app_assoc in R1.
  destruct (fromfile_i4_0_enc _ _ s1 Hflag R1) as (s2 & E2 & R2).
  rewrite (bind_ok _ _ _ _ _ E2).
  destruct (Z.eqb_spec ctab_exists 0) as [|_]; [congruence|].
  destruct (fromfile_i4_0_enc (-2) _ s2 ltac:(unfold int32; lia) R2)
    as (s3 & E3 & R3).
  rewrite (bind_ok _ _ _ _ _ E3). cbn [Z.eqb Pos.eqb negb].
  destruct (fromfile_i4_0_enc _ _ s3 Hn R3) as (s4 & E4 & R4).
  rewrite (bind_ok _ _ _ _ _ E4).
  unfold bind at 1, lift at 1, np_zeros2.
  destruct (Z.ltb_spec n_entries 0) as [Hneg|_]; [lia|].
  destruct (fromfile_i4_0_enc _ _ s4 Hplen R4) as (s5 & E5 & R5).
  rewrite (bind_ok _ _ _ _ _ E5).
  destruct (fromfile_S_0_bytes _ _ s5 Hpath R5) as (s6 & E6 & R6).
  rewrite (bind_ok _ _ _ _ _ E6).
  destruct (fromfile_i4_0_enc _ _ s6 Hen R6) as (s7 & E7 & R7).
  rewrite (bind_ok _ _ _ _ _ E7).
  unfold xrange. rewrite Nat2Z.id. fold n.
  replace n with (k + (n - k))%nat at 1 by lia.
  rewrite replicate_add.
  destruct (for_each_entries entries [] (replicate k (replicate 5 0))
              (replicate (n - k) (replicate 5 0)) tl s7 5%nat Hes R7)
    as (s8 & E8 & R8).
  { apply length_replicate. }
  { apply Forall_replicate. reflexivity. }
  cbn [app length] in E8. fold k in E8.
  rewrite (bind_ok _ _ _ _ _ E8). reflexivity.
Qed.

(** X10.  The packed identifier that [read_annot] stores in column 4 of
    the table it returns loses nothing for 8-bit colours: when the
    stored entries have R, G, B, A from 0 to 255, every row of a stored
    entry holds these four values in columns 0 to 3 and, in column 4, a
    number below 2^32 whose four bytes are columns 0 (lowest), 1, 2 and
    3 of that row. *)
Theorem read_annot_packed_id_bytes (fs : filesystem) filepath vnum data
    ctab_exists n_entries path entries tl :
  annot_head_ok vnum data ->
  int32 ctab_exists -> ctab_exists <> 0 ->
  int32 n_entries ->
  path <> [] -> int32 (Z.of_nat (length path)) ->
  Forall entry_ok entries ->
  Forall (fun e => 0 <= e_R e < 256 /\ 0 <= e_G e < 256
                   /\ 0 <= e_B e < 256 /\ 0 <= e_A e < 256) entries ->
  Z.of_nat (length entries) <= n_entries ->
  fs !! filepath =
    Some (annot_head vnum data ++ enc_i4 ctab_exists
          ++ ctab_v2 n_entries path entries ++ tl) ->
  exists ctab,
    read_annot fs filepath = Ok (Some ctab)
    /\ forall i e, entries !! i = Some e ->
         get2 ctab i 0 = e_R e /\ get2 ctab i 1 = e_G e
         /\ get2 ctab i 2 = e_B e /\ get2 ctab i 3 = e_A e
         /\ 0 <= get2 ctab i 4 < 2 ^ 32
         /\ get2 ctab i 4 mod 256 = get2 ctab i 0
         /\ (get2 ctab i 4 / 2 ^ 8) mod 256 = get2 ctab i 1
         /\ (get2 ctab i 4 / 2 ^ 16) mod 256 = get2 ctab i 2
         /\ get2 ctab i 4 / 2 ^ 24 = get2 ctab i 3.
Proof.
  intros Hhead Hflag Hex Hn Hpath Hplen Hes H8 Hle Hfs.
  eexists. split.
  { apply (read_annot_table fs filepath vnum data ctab_exists n_entries path
             entries tl); assumption. }
  intros i e Hi.
  assert (Hrow : forall j,
            get2 (mkArray2 5
                    (map entry_row entries
                     ++ replicate (Z.to_nat n_entries - length entries)
                          (replicate 5 0))) i j
            = nth j (entry_row e) 0).
  { intros j. unfold get2. cbn [rows]. f_equal.
    apply nth_lookup_Some.
    rewrite lookup_app_l by (rewrite length_map; eapply lookup_lt_Some, Hi).
    rewrite lookup_map, Hi. reflexivity. }
  rewrite !Hrow. unfold entry_row, packed_id. cbn [nth].
  destruct (Forall_lookup_1 _ _ _ _ H8 Hi) as (Hr & Hg & Hb & Ha).
  change (2 ^ 8) with 256. change (2 ^ 16) with 65536.
  change (2 ^ 24) with 16777216. change (2 ^ 32) with 4294967296.
  repeat split; try lia; Z.div_mod_to_equations; lia.
Qed.

Lemma read_annot_packed_id_bytes_witness :
  exists ctab,
    read_annot {["lh.aparc.annot"%string := annot_sample]} "lh.aparc.annot"
      = Ok (Some ctab)
    /\ get2 ctab 1 4 mod 256 = get2 ctab 1 0
    /\ get2 ctab 1 4 / 2 ^ 24 = get2 ctab 1 3
    /\ get2 ctab 1 3 = 255.
Proof.
  destruct (read_annot_packed_id_bytes
              {["lh.aparc.annot"%string := annot_sample]} "lh.aparc.annot"
              2 [0; 77; 1; 88] 1 3 ["A"; "000"]%byte
              [mkEntry 0 ["000"]%byte 10 20 30 0;
               mkEntry 5 ["B"; "000"]%byte 255 255 255 255] [])
    as (ctab & Hread & Hrows).
  - unfold annot_head_ok. repeat split; try lia. repeat constructor; lia.
  - int32_tac.
  - lia.
  - int32_tac.
  - discriminate.
  - simpl. int32_tac.
  - repeat constructor; simpl; try lia; discriminate.
  - repeat constructor; simpl; lia.
  - simpl. lia.
  - vm_compute. reflexivity.
  - exists ctab. split; [exact Hread|].
    destruct (Hrows 1%nat (mkEntry 5 ["B"; "000"]%byte 255 255 255 255) eq_refl)
      as (_ & _ & _ & H3 & _ & H5 & _ & _ & H8).
    split; [exact H5|]. split; [exact H8|exact H3].
Defined.

(** ** Files that are too short *)

(** With fewer than three bytes left [_fread3] cannot unpack. *)
Lemma fread3_short (s : stream) :
  (length (rest s) < 3)%nat ->
  fst (_fread3 s) = Raise (ValueError "need more values to unpack").
Proof.
  intros Hlen. unfold _fread3, fromfile_u1, bind, np_fromfile.
  destruct (rest s) as [|b1 [|b2 [|b3 tl]]]; try reflexivity.
  simpl in Hlen. lia.
Qed.

(** X11.  No decoder returns a result for a file that is too short for
    its first field: with fewer than three bytes the geometry and the
    curvature decoders raise [ValueError], with fewer than four the
    annotation decoder raises [IndexError]. *)
Theorem decoders_reject_short_files (fs : filesystem) filepath bytes :
  fs !! filepath = Some bytes ->
  ((length bytes < 3)%nat ->
   read_geometry fs filepath = Raise (ValueError "need more values to unpack")
   /\ read_curvature fs filepath
      = Raise (ValueError "need more values to unpack"))
  /\ ((length bytes < 4)%nat -> read_annot fs filepath = Raise IndexError).
Proof.
  intros Hfs. split.
  - intros Hlen. unfold read_geometry, read_curvature, with_open. rewrite Hfs.
    pose proof (fread3_short (open_stream bytes)) as H.
    rewrite rest_open_stream in H. specialize (H Hlen).
    unfold bind.
    destruct (_fread3 _) as [r s'] eqn:E; cbn [fst] in H; subst r.
    split; reflexivity.
  - intros Hlen. unfold read_annot, with_open. rewrite Hfs.
    unfold fromfile_i4_0, fromfile_i4, np_fromfile, bind, ret, lift.
    rewrite rest_open_stream. change (Z.to_nat 1) with 1%nat.
    cbn [Z.ltb Z.compare items].
    destruct (Nat.leb_spec 4 (length bytes)) as [|_]; [lia|]. reflexivity.
Qed.

Lemma decoders_reject_short_files_witness :
  read_annot {["empty"%string := []]} "empty" = Raise IndexError.
Proof.
  apply (decoders_reject_short_files {["empty"%string := []]} "empty" []).
  - reflexivity.
  - simpl. lia.
Defined.

(** ** [load_scalar_data]: the fallback path *)

Lemma load_scalar_data_fallback_try nib gunzip (fs : filesystem) filepath
    content :
  nib fs filepath = Raise ImageFileError ->
  fallback_reads gunzip fs filepath content ->
  load_scalar_data nib gunzip fs filepath
  = (let '(r, fobj) := load_scalar_data_try (open_stream content) in
     (match r with Ok _ => Ok None | Raise e => Raise e end,
      Some (close fobj))).
Proof.
  intros Hnib (raw & Hfs & Hext). unfold load_scalar_data. rewrite Hnib.
  destruct Hext as [[Hext ->]|[Hext Hgz]]; rewrite Hext; cbn [String.eqb];
    unfold load_scalar_data_fallback; rewrite Hfs; rewrite ?Hgz;
    unfold try_finally_close;
    destruct (load_scalar_data_try (open_stream content)) as [[a|e] s'];
    reflexivity.
Qed.

(** X12.  On the fallback path ([nibabel] does not know the file; the
    extension is [.mgh] or [.mgz]) a file whose version field is not 1
    makes [load_scalar_data] raise [NotImplementedError], and the file
    object is closed. *)
Theorem load_scalar_data_version nib gunzip (fs : filesystem) filepath
    v tl :
  nib fs filepath = Raise ImageFileError ->
  fallback_reads gunzip fs filepath (enc_i4 v ++ tl) ->
  int32 v -> v <> 1 ->
  exists fobj,
    load_scalar_data nib gunzip fs filepath
    = (Raise (NotImplementedError "Scalar data file version not supported"),
       Some fobj)
    /\ closed fobj = true.
Proof.
  intros Hnib Hreads Hv Hne.
  rewrite (load_scalar_data_fallback_try nib gunzip fs filepath _ Hnib Hreads).
  unfold load_scalar_data_try.
  destruct (read_i4_0_enc v tl (open_stream (enc_i4 v ++ tl)) Hv
              (rest_open_stream _)) as [E _].
  rewrite (bind_ok _ _ _ _ _ E).
  destruct (Z.eqb_spec v 1) as [|_]; [congruence|]. cbn [negb].
  eexists. split; reflexivity.
Qed.

Lemma load_scalar_data_version_witness :
  exists fobj,
    load_scalar_data nib_fails gunzip_id
      {["vol.mgh"%string := enc_i4 2 ++ []]} "vol.mgh"
    = (Raise (NotImplementedError "Scalar data file version not supported"),
       Some fobj)
    /\ closed fobj = true.
Proof.
  apply (load_scalar_data_version nib_fails gunzip_id _ "vol.mgh" 2 []).
  - reflexivity.
  - exists (enc_i4 2 ++ []). split; [reflexivity|]. left. split; reflexivity.
  - int32_tac.
  - lia.
Defined.

(** X13.  On the fallback path a file of version 1 whose data type
    code is not 0, 1, 3 or 4 makes [load_scalar_data] raise [KeyError],
    whatever the dimensions, and the file object is closed. *)
Theorem load_scalar_data_unknown_datatype nib gunzip (fs : filesystem)
    filepath d1 d2 d3 nf code tl :
  nib fs filepath = Raise ImageFileError ->
  fallback_reads gunzip fs filepath
    (concat (map enc_i4 [1; d1; d2; d3; nf; code]) ++ tl) ->
  Forall int32 [d1; d2; d3; nf; code] ->
  code <> 0 -> code <> 1 -> code <> 3 -> code <> 4 ->
  exists fobj,
    load_scalar_data nib gunzip fs filepath = (Raise KeyError, Some fobj)
    /\ closed fobj = true.
Proof.
  intros Hnib Hreads Hall H0 H1 H3 H4.
  rewrite (load_scalar_data_fallback_try nib gunzip fs filepath _ Hnib Hreads).
  inversion Hall as [|? ? I1 Hall1]; subst.
  inversion Hall1 as [|? ? I2 Hall2]; subst.
  inversion Hall2 as [|? ? I3 Hall3]; subst.
  inversion Hall3 as [|? ? I4 Hall4]; subst.
  inversion Hall4 as [|? ? I5 _]; subst.
  set (file := concat (map enc_i4 [1; d1; d2; d3; nf; code]) ++ tl).
  assert (R0 : rest (open_stream file)
               = enc_i4 1 ++ enc_i4 d1 ++ enc_i4 d2 ++ enc_i4 d3
                 ++ enc_i4 nf ++ enc_i4 code ++ tl).
  { rewrite rest_open_stream. unfold file. cbn [map concat].
    rewrite <- !app_assoc. reflexivity. }
  destruct (read_i4_0_enc 1 _ _ ltac:(unfold int32; lia) R0) as [E1 R1].
  destruct (read_i4_0_enc d1 _ _ I1 R1) as [E2 R2].
  destruct (read_i4_0_enc d2 _ _ I2 R2) as [E3 R3].
  destruct (read_i4_0_enc d3 _ _ I3 R3) as [E4 R4].
  destruct (read_i4_0_enc nf _ _ I4 R4) as [E5 R5].
  destruct (read_i4_0_enc code _ _ I5 R5) as [E6 R6].
  unfold load_scalar_data_try.
  rewrite (bind_ok _ _ _ _ _ E1). cbn [Z.eqb Pos.eqb negb].
  rewrite (bind_ok _ _ _ _ _ E2), (bind_ok _ _ _ _ _ E3),
    (bind_ok _ _ _ _ _ E4), (bind_ok _ _ _ _ _ E5), (bind_ok _ _ _ _ _ E6).
  unfold bind at 1, lift at 1.
  assert (Hk : datatype_table code = Raise KeyError).
  { unfold datatype_table.
    destruct code as [|[[|[]|]|[|[]|]|]|]; try reflexivity; congruence. }
  rewrite Hk. eexists. split; reflexivity.
Qed.

Lemma load_scalar_data_unknown_datatype_witness :
  exists fobj,
    load_scalar_data nib_fails gunzip_id
      {["vol.mgz"%string := concat (map enc_i4 [1; 2; 2; 2; 1; 2]) ++ []]}
      "vol.mgz"
    = (Raise KeyError, Some fobj)
    /\ closed fobj = true.
Proof.
  apply (load_scalar_data_unknown_datatype nib_fails gunzip_id _ "vol.mgz"
           2 2 2 1 2 []).
  - reflexivity.
  - exists (concat (map enc_i4 [1; 2; 2; 2; 1; 2]) ++ []).
    split; [reflexivity|]. right. split; reflexivity.
  - repeat constructor; unfold int32; lia.
  - lia.
  - lia.
  - lia.
  - lia.
Defined.

(** X14.  Whatever the file system and the libraries do, every file
    object that [load_scalar_data] makes is closed when the call ends,
    and a call for which [nibabel] raised [ImageFileError] never
    returns data: it raises or returns [None]. *)
Theorem load_scalar_data_closes_and_returns_nothing nib gunzip
    (fs : filesystem) filepath :
  (forall fobj,
     snd (load_scalar_data nib gunzip fs filepath) = Some fobj ->
     closed fobj = true)
  /\ (nib fs filepath = Raise ImageFileError ->
      forall a, fst (load_scalar_data nib gunzip fs filepath) <> Ok (Some a)).
Proof.
  assert (Hfb : forall gz,
    (forall fobj,
       snd (load_scalar_data_fallback gunzip fs filepath gz) = Some fobj ->
       closed fobj = true)
    /\ forall a,
         fst (load_scalar_data_fallback gunzip fs filepath gz) <> Ok (Some a)).
  { intros gz. unfold load_scalar_data_fallback.
    destruct (fs !! filepath) as [bytes|]; [|split; [discriminate|discriminate]].
    destruct (if gz then gunzip bytes else Ok bytes) as [bs|e].
    - unfold try_finally_close.
      destruct (load_scalar_data_try (open_stream bs)) as [[a|e] s'];
        cbn [fst snd]; split; try discriminate;
        intros fobj H; injection H as <-; reflexivity.
    - cbn [fst snd]. split; [|discriminate].
      intros fobj H; injection H as <-; reflexivity. }
  unfold load_scalar_data. split.
  - destruct (nib fs filepath) as [a|e]; [discriminate|].
    destruct e; try discriminate.
    destruct (String.eqb _ ".mgz"); [apply Hfb|].
    destruct (String.eqb _ ".mgh"); [apply Hfb|discriminate].
  - intros -> a.
    destruct (String.eqb _ ".mgz"); [apply Hfb|].
    destruct (String.eqb _ ".mgh"); [apply Hfb|discriminate].
Qed.

Lemma load_scalar_data_closes_and_returns_nothing_witness :
  (forall fobj,
     snd (load_scalar_data nib_fails gunzip_id
            {["vol.mgh"%string := mgh_sample]} "vol.mgh") = Some fobj ->
     closed fobj = true)
  /\ forall a,
       fst (load_scalar_data nib_fails gunzip_id
              {["vol.mgh"%string := mgh_sample]} "vol.mgh") <> Ok (Some a).
Proof.
  destruct (load_scalar_data_closes_and_returns_nothing nib_fails gunzip_id
              {["vol.mgh"%string := mgh_sample]} "vol.mgh") as [Hc Hn].
  split; [exact Hc|]. apply Hn. reflexivity.
Defined.

(** X15.  On the fallback path a well-formed file of version 1 (the six
    header fields, the rest of the 284-byte header, the data of the
    declared size and type) makes [load_scalar_data] return [None],
    with the file object closed: the data that was decoded is not
    returned. *)
Theorem load_scalar_data_well_formed nib gunzip (fs : filesystem) filepath
    d1 d2 d3 nf code databytes typecode pad data tl :
  nib fs filepath = Raise ImageFileError ->
  fallback_reads gunzip fs filepath
    (concat (map enc_i4 [1; d1; d2; d3; nf; code]) ++ pad ++ data ++ tl) ->
  datatype_table code = Ok (databytes, typecode) ->
  0 <= d1 < 2 ^ 31 -> 0 <= d2 < 2 ^ 31 -> 0 <= d3 < 2 ^ 31 ->
  0 <= nf < 2 ^ 31 ->
  d1 * d2 < 2 ^ 31 -> d1 * d2 * d3 < 2 ^ 31 -> d1 * d2 * d3 * nf < 2 ^ 31 ->
  length pad = 260%nat ->
  Z.of_nat (length data) = d1 * d2 * d3 * nf * databytes ->
  exists fobj,
    load_scalar_data nib gunzip fs filepath = (Ok None, Some fobj)
    /\ closed fobj = true.
Proof.
  intros Hnib Hreads Hdt [L1 U1] [L2 U2] [L3 U3] [L4 U4] B12 B123 B Hpad Hlen.
  rewrite (load_scalar_data_fallback_try nib gunzip fs filepath _ Hnib Hreads).
  destruct (load_scalar_data_try_decodes d1 d2 d3 nf code databytes typecode
              pad data tl Hdt L1 L2 L3 L4 U1 B12 B123 B U2 U3 U4 Hpad Hlen)
    as (sd & E & _).
  destruct (load_scalar_data_try _) as [r s']. cbn [fst] in E. subst r.
  eexists. split; reflexivity.
Qed.

Lemma load_scalar_data_well_formed_witness :
  exists fobj,
    load_scalar_data nib_fails gunzip_id
      {["vol.mgz"%string :=
          concat (map enc_i4 [1; 2; 1; 1; 1; 4]) ++ replicate 260 "000"%byte
          ++ enc_i2 5 ++ enc_i2 (-7) ++ []]}
      "vol.mgz"
    = (Ok None, Some fobj)
    /\ closed fobj = true.
Proof.
  apply (load_scalar_data_well_formed nib_fails gunzip_id _ "vol.mgz"
           2 1 1 1 4 2 i2 (replicate 260 "000"%byte)
           (enc_i2 5 ++ enc_i2 (-7)) []).
  - reflexivity.
  - exists (concat (map enc_i4 [1; 2; 1; 1; 1; 4]) ++ replicate 260 "000"%byte
            ++ (enc_i2 5 ++ enc_i2 (-7)) ++ []).
    split; [reflexivity|]. right. split; reflexivity.
  - reflexivity.
  - lia.
  - lia.
  - lia.
  - lia.
  - lia.
  - lia.
  - lia.
  - reflexivity.
  - reflexivity.
Defined.

(** ** [load_curvature] *)

(** X16.  [load_curvature] on an old-format file: [curv] gets the
    stored 16-bit values divided by 100 as integers, and [bin_curv] is
    1 exactly at the vertices whose stored value is at least 100; a
    stored value from 1 to 99 counts as not positive.  No other
    attribute changes. *)
Theorem load_curvature_old_mask (fs : filesystem) self magic skip vals tl :
  0 <= magic < 2 ^ 24 -> magic <> 16777215 ->
  0 <= skip < 2 ^ 24 ->
  Forall int16 vals ->
  Z.of_nat (length vals) = magic ->
  fs !! curv_path self = Some (curv_old magic skip vals ++ tl) ->
  exists self',
    load_curvature fs self = Ok self'
    /\ curv self' = Some (IntArray i2 (map (fun v => v / 100) vals))
    /\ bin_curv self' = Some (map (fun v => if 100 <=? v then 1 else 0) vals)
    /\ coords self' = coords self /\ faces self' = faces self
    /\ labels self' = labels self.
Proof.
  intros Hm Hnew Hs Hv Hlen Hfs.
  assert (Hread : read_curvature fs (curv_path self)
                  = Ok (IntArray i2 (map (fun v => v / 100) vals))).
  { unfold read_curvature, with_open. rewrite Hfs.
    assert (R0 : rest (open_stream (curv_old magic skip vals ++ tl))
                 = enc_u3 magic ++ enc_u3 skip
                   ++ concat (map enc_i2 vals) ++ tl).
    { rewrite rest_open_stream. unfold curv_old. rewrite <- !app_assoc.
      reflexivity. }
    destruct (fread3_enc_u3 _ _ _ Hm R0) as (s1 & E1 & R1).
    rewrite (bind_ok _ _ _ _ _ E1).
    destruct (Z.eqb_spec magic 16777215) as [|_]; [congruence|].
    destruct (fread3_enc_u3 _ _ _ Hs R1) as (s2 & E2 & R2).
    rewrite (bind_ok _ _ _ _ _ E2).
    destruct (fromfile_i2_enc _ _ _ Hv R2) as (s3 & E3 & R3).
    rewrite <- Hlen, (bind_ok _ _ _ _ _ E3). reflexivity. }
  unfold load_curvature. rewrite Hread. cbn [rbind].
  eexists. split; [reflexivity|]. cbn.
  split; [reflexivity|]. split; [|auto].
  f_equal. rewrite map_map. apply map_ext. intros v.
  destruct (Z.leb_spec 100 v) as [Hge|Hlt].
  - assert (1 <= v / 100) by (apply Z.div_le_lower_bound; lia).
    destruct (Z.ltb_spec 0 (v / 100)); [reflexivity|lia].
  - assert (v / 100 < 1) by (apply Z.div_lt_upper_bound; lia).
    destruct (Z.ltb_spec 0 (v / 100)); [lia|reflexivity].
Qed.

Lemma load_curvature_old_mask_witness :
  exists self',
    load_curvature fs_sample bert_fresh = Ok self'
    /\ curv self' = Some (IntArray i2 [1; -1; 0; 2; 0])
    /\ bin_curv self' = Some [1; 0; 0; 1; 0].
Proof.
  destruct (load_curvature_old_mask fs_sample bert_fresh 5 0
              [100; -50; 0; 200; 1] [])
    as (self' & H1 & H2 & H3 & _).
  - lia.
  - lia.
  - lia.
  - repeat constructor; simpl; lia.
  - reflexivity.
  - vm_compute. reflexivity.
  - exists self'. split; [exact H1|]. split; [exact H2|exact H3].
Defined.

(** ** [load_label] *)

(** An index out of range makes the assignment raise, wherever it is in
    the list. *)
Lemma put_ones_out_of_range idx : forall a,
  Exists (fun i => ~ (- Z.of_nat (length a) <= i < Z.of_nat (length a))) idx ->
  put_ones a idx = Raise IndexError.
Proof.
  induction idx as [|i idx IH]; intros a H; [inversion H|].
  cbn [put_ones].
  destruct (Z.leb_spec (- Z.of_nat (length a)) i) as [Hlo|]; [|reflexivity].
  destruct (Z.ltb_spec i (Z.of_nat (length a))) as [Hhi|]; [|reflexivity].
  cbn [andb]. apply IH. rewrite length_insert.
  inversion H as [? ? Hi|? ? Hrest]; subst; [lia|exact Hrest].
Qed.

(** The assignment with indices in range, negative ones counting from
    the end: 1 at the positions named, the others as they were. *)
Lemma put_ones_wraps idx : forall a,
  Forall (fun i => - Z.of_nat (length a) <= i < Z.of_nat (length a)) idx ->
  exists v,
    put_ones a idx = Ok v /\ length v = length a /\
    forall j x, a !! j = Some x ->
      v !! j = Some (if bool_decide
                          (Z.of_nat j ∈ map (fun i => i mod Z.of_nat (length a)) idx)
                     then 1 else x).
Proof.
  induction idx as [|i idx IH]; intros a Hidx.
  - exists a. split; [reflexivity|]. split; [reflexivity|]. intros j x Hj.
    rewrite bool_decide_eq_false_2 by (apply not_elem_of_nil). exact Hj.
  - inversion Hidx as [|? ? Hi Hrest]; subst. cbn [put_ones].
    destruct (Z.leb_spec (- Z.of_nat (length a)) i) as [_|]; [|lia].
    destruct (Z.ltb_spec i (Z.of_nat (length a))) as [_|]; [|lia].
    cbn [andb].
    set (n := Z.of_nat (length a)) in *.
    assert (Hmod : 0 <= i mod n < n) by (apply Z.mod_pos_bound; lia).
    destruct (IH (<[Z.to_nat (i mod n) := 1]> a)) as (v & Hv & Hlen & Hlook).
    { rewrite length_insert. exact Hrest. }
    rewrite length_insert in Hlen, Hlook. fold n in Hlook.
    exists v. split; [exact Hv|]. split; [exact Hlen|]. intros j x Hj.
    cbn [map].
    destruct (decide (j = Z.to_nat (i mod n))) as [->|Hne].
    + rewrite (Hlook _ 1)
        by (apply list_lookup_insert_eq; apply lookup_lt_Some in Hj; exact Hj).
      rewrite (bool_decide_eq_true_2 (_ ∈ i mod n :: _))
        by (rewrite Z2Nat.id by lia; apply elem_of_cons; left; reflexivity).
      destruct (bool_decide _); reflexivity.
    + rewrite (Hlook _ x) by (rewrite list_lookup_insert_ne by auto; exact Hj).
      destruct (bool_decide (Z.of_nat j ∈ map (fun i0 => i0 mod n) idx)) eqn:E.
      * apply bool_decide_eq_true_1 in E.
        rewrite bool_decide_eq_true_2 by (apply elem_of_cons; right; exact E).
        reflexivity.
      * apply bool_decide_eq_false_1 in E.
        rewrite bool_decide_eq_false_2; [reflexivity|].
        intros Hin. apply elem_of_cons in Hin as [Heq|Hin]; [lia|auto].
Qed.

(** X17.  [load_label] on an object with geometry and a dictionary of
    labels: when the label file decodes to indices in range (a negative
    index counts from the end), the dictionary gets under [name] a
    vector with one entry per vertex, 1 at the vertices listed and 0
    elsewhere; the labels stored under other names stay, and so does
    every other attribute. *)
Theorem load_label_stores np_loadtxt (fs : filesystem) self name c d label :
  coords self = Some c ->
  has_shape c (nrows c) 3 ->
  labels self = Some d ->
  read_label np_loadtxt fs (label_path self name) = Ok label ->
  Forall (fun i => - Z.of_nat (nrows c) <= i < Z.of_nat (nrows c)) label ->
  exists self' d' v,
    load_label np_loadtxt fs self name = Ok self'
    /\ labels self' = Some d'
    /\ d' !! name = Some v
    /\ length v = nrows c
    /\ (forall j, (j < nrows c)%nat ->
          v !! j = Some (if bool_decide
                              (Z.of_nat j ∈
                                 map (fun i => i mod Z.of_nat (nrows c)) label)
                         then 1 else 0))
    /\ (forall other, other <> name -> d' !! other = d !! other)
    /\ coords self' = coords self /\ faces self' = faces self
    /\ curv self' = curv self /\ bin_curv self' = bin_curv self
    /\ subject_id self' = subject_id self /\ hemi self' = hemi self
    /\ surf self' = surf self /\ data_path self' = data_path self.
Proof.
  intros Hc Hshape Hd Hlabel Hidx.
  destruct (x_loaded self c Hc Hshape) as (xs & Hx & Hlen).
  destruct (put_ones_wraps label (np_zeros (length xs)))
    as (v & Hv & Hlv & Hlook).
  { unfold np_zeros. rewrite length_replicate, Hlen. exact Hidx. }
  unfold np_zeros in Hlv, Hlook. rewrite length_replicate, Hlen in Hlv, Hlook.
  eexists _, (<[name := v]> d), v. split.
  { unfold load_label. rewrite Hlabel. cbn [rbind]. rewrite Hx. cbn [rbind].
    rewrite Hv. cbn [rbind]. rewrite Hd. reflexivity. }
  cbn [labels coords faces curv bin_curv subject_id hemi surf data_path].
  split; [reflexivity|].
  split; [apply lookup_insert_eq|].
  split; [exact Hlv|].
  split.
  { intros j Hj. apply Hlook. apply lookup_replicate_2. lia. }
  split.
  { intros other Hne. apply lookup_insert_ne. congruence. }
  auto 10.
Qed.

Lemma load_label_stores_witness :
  exists self' d' v,
    load_label (fun _ => Ok [-1])
      {["/data/bert/label/lh.v1.label"%string := []]} bert_sample "v1"
    = Ok self'
    /\ labels self' = Some d'
    /\ d' !! "v1"%string = Some v
    /\ v !! 1%nat = Some 1
    /\ d' !! "cortex"%string = Some [1; 0].
Proof.
  destruct (load_label_stores (fun _ => Ok [-1])
              {["/data/bert/label/lh.v1.label"%string := []]} bert_sample "v1"
              (mkArray2 3 [[1; 2; 3]; [-4; 0.5; 0]]%float)
              {["cortex"%string := [1; 0]]} [-1])
    as (self' & d' & v & H1 & H2 & H3 & _ & H5 & H6 & _).
  - reflexivity.
  - unfold has_shape. repeat split. repeat constructor.
  - reflexivity.
  - vm_compute. reflexivity.
  - repeat constructor; vm_compute; discriminate.
  - exists self', d', v. split; [exact H1|]. split; [exact H2|].
    split; [exact H3|]. split.
    + apply (H5 1%nat). vm_compute. lia.
    + rewrite H6 by discriminate. reflexivity.
Defined.

(** X18.  A label file that lists a vertex index out of range makes
    [load_label] raise [IndexError], and the object keeps the labels it
    had: nothing is stored from the file. *)
Theorem load_label_out_of_range np_loadtxt (fs : filesystem) self name c
    label :
  coords self = Some c ->
  has_shape c (nrows c) 3 ->
  read_label np_loadtxt fs (label_path self name) = Ok label ->
  Exists (fun i => ~ (- Z.of_nat (nrows c) <= i < Z.of_nat (nrows c))) label ->
  load_label np_loadtxt fs self name = Raise IndexError
  /\ after np_loadtxt fs self (LoadLabel name) = self.
Proof.
  intros Hc Hshape Hlabel Hidx.
  destruct (x_loaded self c Hc Hshape) as (xs & Hx & Hlen).
  assert (H : load_label np_loadtxt fs self name = Raise IndexError).
  { unfold load_label. rewrite Hlabel. cbn [rbind]. rewrite Hx. cbn [rbind].
    rewrite put_ones_out_of_range; [reflexivity|].
    unfold np_zeros. rewrite length_replicate, Hlen. exact Hidx. }
  split; [exact H|]. unfold after. cbn [do_call]. rewrite H. reflexivity.
Qed.

Lemma load_label_out_of_range_witness :
  load_label (fun _ => Ok [0; 2]) fs_sample bert_sample "cortex"
  = Raise IndexError
  /\ after (fun _ => Ok [0; 2]) fs_sample bert_sample (LoadLabel "cortex")
     = bert_sample.
Proof.
  apply (load_label_out_of_range (fun _ => Ok [0; 2]) fs_sample bert_sample
           "cortex" (mkArray2 3 [[1; 2; 3]; [-4; 0.5; 0]]%float) [0; 2]).
  - reflexivity.
  - unfold has_shape. repeat split. repeat constructor.
  - vm_compute. reflexivity.
  - apply Exists_cons_tl, Exists_cons_hd. vm_compute. intros [_ H]. discriminate H.
Defined.

(** ** Sequences of loads *)

(** X19.  Loading the geometry or the curvature twice is the same as
    loading it once, and the two loads can be made in either order:
    each reads a file whose path depends on the attributes that no load
    changes, and assigns attributes that the other leaves alone. *)
Theorem loads_compose np_loadtxt (fs : filesystem) self :
  let run := after np_loadtxt fs in
  run (run self LoadGeometry) LoadGeometry = run self LoadGeometry
  /\ run (run self LoadCurvature) LoadCurvature = run self LoadCurvature
  /\ run (run self LoadGeometry) LoadCurvature
     = run (run self LoadCurvature) LoadGeometry.
Proof.
  cbn zeta. unfold after. cbn [do_call].
  unfold load_geometry, load_curvature.
  destruct (read_geometry fs (surf_path self)) as [cf|e1] eqn:E1;
    destruct (read_curvature fs (curv_path self)) as [a|e2] eqn:E2;
    cbn [rbind];
    unfold surf_path, curv_path in *;
    cbn [subject_id hemi surf data_path coords faces curv bin_curv labels];
    rewrite ?E1, ?E2; cbn [rbind];
    cbn [subject_id hemi surf data_path coords faces curv bin_curv labels];
    rewrite ?E1, ?E2; cbn [rbind];
    repeat split; reflexivity.
Qed.

(** One call keeps the attributes that say which subject the object is
    for, the masks in step with the curvature, and the vertices and the
    faces present or absent together. *)
Lemma after_invariants np_loadtxt (fs : filesystem) self c :
  let self' := after np_loadtxt fs self c in
  (subject_id self' = subject_id self /\ hemi self' = hemi self
   /\ surf self' = surf self /\ data_path self' = data_path self)
  /\ (bin_curv self = positive_mask <$> curv self ->
      bin_curv self' = positive_mask <$> curv self')
  /\ ((coords self = None <-> faces self = None) ->
      (coords self' = None <-> faces self' = None)).
Proof.
  cbn zeta. unfold after.
  destruct (do_call np_loadtxt fs self c) as [self'|e] eqn:E;
    [|split; [auto|split; auto]].
  destruct c as [| |name|mtx]; cbn [do_call] in E.
  - unfold load_geometry in E.
    destruct (read_geometry fs (surf_path self)); [|discriminate E].
    cbn [rbind] in E. injection E as <-. cbn.
    split; [auto|]. split; [auto|]. intros _. split; discriminate.
  - unfold load_curvature in E.
    destruct (read_curvature fs (curv_path self)); [|discriminate E].
    cbn [rbind] in E. injection E as <-. cbn.
    split; [auto|]. split; auto.
  - unfold load_label in E.
    destruct (read_label np_loadtxt fs (label_path self name));
      [|discriminate E].
    cbn [rbind] in E. destruct (x self); [|discriminate E].
    cbn [rbind] in E. destruct (put_ones _ _); [|discriminate E].
    cbn [rbind] in E. injection E as <-. cbn.
    split; [auto|]. split; auto.
  - unfold apply_xfm in E.
    destruct (coords self) as [c|] eqn:Hc; [|discriminate E].
    cbn [getattr rbind] in E.
    destruct (np_c_ c (np_ones (nrows c))); [|discriminate E].
    cbn [rbind] in E. destruct (np_dot _ _); [|discriminate E].
    cbn [rbind] in E. injection E as <-. cbn.
    split; [auto|]. split; [auto|]. intros [H1 H2]. split; [discriminate|].
    intros Hf. apply H2 in Hf. discriminate Hf.
Qed.

(** X20.  On an object made by the constructor, after any sequence of
    calls, failed ones included: the subject, the hemisphere, the
    surface name and the data path are those of the constructor;
    [bin_curv] is the mask of the positive values of [curv], or both
    are unset; and [coords] and [faces] are set or unset together. *)
Theorem surface_invariants np_loadtxt (fs : filesystem) environ sid h sf
    self cs :
  __init__ environ sid h sf = Ok self ->
  let self' := after_all np_loadtxt fs self cs in
  subject_id self' = sid /\ hemi self' = h /\ surf self' = sf
  /\ data_path self' = data_path self
  /\ bin_curv self' = positive_mask <$> curv self'
  /\ (coords self' = None <-> faces self' = None).
Proof.
  intros Hinit. cbn zeta.
  assert (H0 : subject_id self = sid /\ hemi self = h /\ surf self = sf
               /\ bin_curv self = positive_mask <$> curv self
               /\ (coords self = None <-> faces self = None)).
  { unfold __init__ in Hinit.
    destruct (environ !! "SUBJECTS_DIR"%string); [|discriminate Hinit].
    injection Hinit as <-. cbn. tauto. }
  destruct H0 as (<- & <- & <- & Hm & Hcf).
  assert (G : forall s,
    bin_curv s = positive_mask <$> curv s ->
    (coords s = None <-> faces s = None) ->
    let s' := after_all np_loadtxt fs s cs in
    subject_id s' = subject_id s /\ hemi s' = hemi s /\ surf s' = surf s
    /\ data_path s' = data_path s
    /\ bin_curv s' = positive_mask <$> curv s'
    /\ (coords s' = None <-> faces s' = None)).
  { clear. induction cs as [|c cs IH]; intros s Hm Hcf; cbn zeta.
    - cbn. auto 10.
    - cbn [after_all fold_left].
      destruct (after_invariants np_loadtxt fs s c)
        as ((I1 & I2 & I3 & I4) & Im & Ic).
      destruct (IH (after np_loadtxt fs s c) (Im Hm) (Ic Hcf))
        as (J1 & J2 & J3 & J4 & J5 & J6).
      unfold after_all in *.
      rewrite J1, J2, J3, J4, I1, I2, I3, I4. auto 10. }
  apply G; assumption.
Qed.

Lemma surface_invariants_witness :
  let self' :=
    after_all loadtxt_0_3 fs_sample bert_fresh
      [LoadCurvature; LoadLabel "cortex"; LoadGeometry; ApplyXfm eye4] in
  subject_id self' = "bert"%string /\ hemi self' = "lh"%string
  /\ surf self' = "inflated"%string
  /\ data_path self' = data_path bert_fresh
  /\ bin_curv self' = positive_mask <$> curv self'
  /\ (coords self' = None <-> faces self' = None).
Proof.
  apply (surface_invariants loadtxt_0_3 fs_sample environ_sample
           "bert" "lh" "inflated" bert_fresh
           [LoadCurvature; LoadLabel "cortex"; LoadGeometry; ApplyXfm eye4]).
  vm_compute. reflexivity.
Defined.

(** ** [apply_xfm]: the shape of the matrix *)

(** X21.  With geometry loaded, [apply_xfm] succeeds exactly when the
    matrix has one column more than [coords]; the new [coords] then has
    the same number of rows and as many columns as the matrix has rows,
    at most three.  So a matrix of fewer than three rows is accepted,
    and leaves an object on which [z] raises [IndexError]. *)
Theorem apply_xfm_alignment self mtx c :
  coords self = Some c ->
  (ncols mtx = S (ncols c) ->
   exists self' c',
     apply_xfm self mtx = Ok self' /\ coords self' = Some c'
     /\ has_shape c' (nrows c) (Nat.min 3 (nrows mtx))
     /\ ((nrows mtx < 3)%nat -> z self' = Raise IndexError))
  /\ (ncols mtx <> S (ncols c) ->
      exists msg, apply_xfm self mtx = Raise (ValueError msg)).
Proof.
  intros Hc. unfold apply_xfm. rewrite Hc. cbn [getattr rbind].
  rewrite np_c_ones_rows. cbn [rbind]. unfold np_dot. cbn [ncols].
  rewrite nrows_transpose. split.
  - intros <-. rewrite Nat.eqb_refl. cbn [rbind].
    eexists _, _. split; [reflexivity|]. split; [reflexivity|]. split.
    + unfold has_shape, take_columns, nrows. cbn [rows ncols transpose].
      rewrite !length_map. split; [reflexivity|].
      fold (nrows mtx). split; [reflexivity|].
      apply Forall_map, Forall_map, Forall_map, Forall_forall. intros r _.
      rewrite length_take, !length_map, length_seq. reflexivity.
    + intros Hlt. unfold z. cbn [coords getattr rbind].
      unfold column, take_columns. cbn [ncols transpose].
      fold (nrows mtx).
      destruct (Nat.ltb_spec 2 (Nat.min 3 (nrows mtx))); [lia|reflexivity].
  - intros Hne.
    destruct (Nat.eqb_spec (S (ncols c)) (ncols mtx)) as [Heq|_];
      [congruence|].
    eexists. reflexivity.
Qed.

Lemma apply_xfm_alignment_witness :
  (exists self' c',
     apply_xfm bert_sample
       (mkArray2 4 [[1; 0; 0; 0]; [0; 1; 0; 0]]%float) = Ok self'
     /\ coords self' = Some c'
     /\ has_shape c' 2 2
     /\ z self' = Raise IndexError)
  /\ exists msg,
       apply_xfm bert_sample
         (mkArray2 3 [[1; 0; 0]; [0; 1; 0]; [0; 0; 1]]%float)
       = Raise (ValueError msg).
Proof.
  split.
  - destruct (proj1 (apply_xfm_alignment bert_sample
                (mkArray2 4 [[1; 0; 0; 0]; [0; 1; 0; 0]]%float)
                (mkArray2 3 [[1; 2; 3]; [-4; 0.5; 0]]%float) eq_refl) eq_refl)
      as (self' & c' & H1 & H2 & H3 & H4).
    exists self', c'. split; [exact H1|]. split; [exact H2|].
    split; [exact H3|]. apply H4. vm_compute. lia.
  - apply (proj2 (apply_xfm_alignment bert_sample
             (mkArray2 3 [[1; 0; 0]; [0; 1; 0]; [0; 0; 1]]%float)
             (mkArray2 3 [[1; 2; 3]; [-4; 0.5; 0]]%float) eq_refl)).
    vm_compute. discriminate.
Defined.

(** The object that [apply_xfm] returns for a 4 x 4 matrix. *)
Lemma apply_xfm_eq self mtx c :
  coords self = Some c ->
  ncols c = 3%nat ->
  has_shape mtx 4 4 ->
  apply_xfm self mtx =
    Ok {| subject_id := subject_id self; hemi := hemi self; surf := surf self;
          data_path := data_path self;
          coords := Some (mkArray2 3 (map (xfm_spec mtx) (rows c)));
          faces := faces self; curv := curv self; bin_curv := bin_curv self;
          labels := labels self |}.
Proof.
  intros Hc Hn Hm. pose proof Hm as (Hr4 & Hc4 & _).
  unfold apply_xfm. rewrite Hc. cbn [getattr rbind].
  rewrite np_c_ones_rows. cbn [rbind]. unfold np_dot. cbn [ncols].
  rewrite nrows_transpose, Hn, Hc4. cbn [Nat.eqb rbind].
  f_equal. f_equal. f_equal.
  unfold take_columns. cbn [rows ncols].
  rewrite (transpose_transpose_4x4 mtx Hm), !map_map.
  unfold transpose at 1. cbn [ncols]. rewrite Hr4. reflexivity.
Qed.

(** X22.  The fourth row of a 4 x 4 matrix plays no part: two matrices
    with the same first three rows transform an object alike. *)
Theorem apply_xfm_ignores_fourth_row self m1 m2 c :
  coords self = Some c ->
  has_shape c (nrows c) 3 ->
  has_shape m1 4 4 -> has_shape m2 4 4 ->
  take 3 (rows m1) = take 3 (rows m2) ->
  is_ok (apply_xfm self m1) = true
  /\ apply_xfm self m1 = apply_xfm self m2.
Proof.
  intros Hc (_ & Hn & _) H1 H2 Hrows.
  rewrite (apply_xfm_eq self m1 c Hc Hn H1), (apply_xfm_eq self m2 c Hc Hn H2).
  split; [reflexivity|].
  do 4 f_equal. apply map_ext. intros r. unfold xfm_spec.
  rewrite !firstn_map, Hrows. reflexivity.
Qed.

Lemma apply_xfm_ignores_fourth_row_witness :
  is_ok (apply_xfm bert_sample eye4) = true
  /\ apply_xfm bert_sample eye4
     = apply_xfm bert_sample
         (mkArray2 4
            [[1; 0; 0; 0]; [0; 1; 0; 0]; [0; 0; 1; 0]; [5; 6; 7; 8]]%float).
Proof.
  apply (apply_xfm_ignores_fourth_row bert_sample eye4
           (mkArray2 4
              [[1; 0; 0; 0]; [0; 1; 0; 0]; [0; 0; 1; 0]; [5; 6; 7; 8]]%float)
           (mkArray2 3 [[1; 2; 3]; [-4; 0.5; 0]]%float)).
  - reflexivity.
  - unfold has_shape. repeat split. repeat constructor.
  - unfold has_shape. repeat split. repeat constructor.
  - unfold has_shape. repeat split. repeat constructor.
  - reflexivity.
Defined.

(** ** The paths of the files *)

Lemma append_assoc3 (a b c : string) : (a +:+ b) +:+ c = a +:+ (b +:+ c).
Proof.
  induction a as [|ch a IH]; [reflexivity|].
  change (String ch ((a +:+ b) +:+ c) = String ch (a +:+ (b +:+ c))).
  rewrite IH. reflexivity.
Qed.

Lemma append_nonempty (a b : string) : b <> ""%string -> a +:+ b <> ""%string.
Proof. destruct a; [auto|discriminate]. Qed.

Lemma endswith_slash_append (a b : string) :
  b <> ""%string -> endswith_slash (a +:+ b) = endswith_slash b.
Proof.
  intros Hb. induction a as [|ch a IH]; [reflexivity|].
  change (String ch a +:+ b) with (String ch (a +:+ b)).
  pose proof (append_nonempty a b Hb) as Hne.
  cbn [endswith_slash]. destruct (a +:+ b); [contradiction|]. exact IH.
Qed.

(** [os.path.join] of a directory written without a final slash and a
    relative name. *)
Lemma join2_relative (path b : string) :
  path <> ""%string -> endswith_slash path = false ->
  startswith_slash b = false ->
  join2 path b = path +:+ "/" +:+ b.
Proof.
  intros Hne Hend Hb. unfold join2. rewrite Hb, Hend.
  destruct (String.eqb_spec path ""); [contradiction|]. reflexivity.
Qed.

Lemma startswith_slash_dotted (h rest : string) :
  startswith_slash h = false -> startswith_slash (h +:+ "." +:+ rest) = false.
Proof. destruct h; [reflexivity|]. intros H. exact H. Qed.

(** X23.  Where the files are looked for.  With [SUBJECTS_DIR] set to a
    directory written without a final slash, and a subject name that is
    a relative path without a final slash, the three loads read
    [<SUBJECTS_DIR>/<subject>/surf/<hemi>.<surf>],
    [<SUBJECTS_DIR>/<subject>/surf/<hemi>.curv] and
    [<SUBJECTS_DIR>/<subject>/label/<hemi>.<name>.label]. *)
Theorem surface_paths environ d sid h sf name self :
  environ !! "SUBJECTS_DIR"%string = Some d ->
  d <> ""%string -> endswith_slash d = false ->
  sid <> ""%string -> startswith_slash sid = false ->
  endswith_slash sid = false ->
  startswith_slash h = false ->
  __init__ environ sid h sf = Ok self ->
  surf_path self
  = (d +:+ "/" +:+ sid +:+ "/surf/" +:+ h +:+ "." +:+ sf)%string
  /\ curv_path self
     = (d +:+ "/" +:+ sid +:+ "/surf/" +:+ h +:+ ".curv")%string
  /\ label_path self name
     = (d +:+ "/" +:+ sid +:+ "/label/" +:+ h +:+ "." +:+ name
        +:+ ".label")%string.
Proof.
  intros Henv Hd Hdend Hsid Hsid0 Hsidend Hh Hinit.
  unfold __init__ in Hinit. rewrite Henv in Hinit. injection Hinit as <-.
  unfold surf_path, curv_path, label_path, pjoin.
  cbn [data_path hemi surf fold_left].
  rewrite (join2_relative d sid Hd Hdend Hsid0).
  assert (Hdp : d +:+ "/" +:+ sid <> ""%string).
  { apply append_nonempty, append_nonempty, Hsid. }
  assert (Hdpend : endswith_slash (d +:+ "/" +:+ sid) = false).
  { rewrite endswith_slash_append by (apply append_nonempty, Hsid).
    rewrite endswith_slash_append by exact Hsid. exact Hsidend. }
  rewrite !(join2_relative (d +:+ "/" +:+ sid)) by (assumption || reflexivity).
  assert (Hdir : forall dir : string,
            dir <> ""%string -> endswith_slash dir = false ->
            forall file, startswith_slash file = false ->
            join2 ((d +:+ "/" +:+ sid) +:+ "/" +:+ dir) file
            = d +:+ "/" +:+ sid +:+ "/" +:+ dir +:+ "/" +:+ file).
  { intros dir Hdir Hdirend file Hfile. rewrite join2_relative.
    - rewrite !append_assoc3. reflexivity.
    - apply append_nonempty, append_nonempty, Hdir.
    - rewrite endswith_slash_append by (apply append_nonempty, Hdir).
      rewrite endswith_slash_append by exact Hdir. exact Hdirend.
    - exact Hfile. }
  rewrite !Hdir
    by (discriminate || reflexivity || apply startswith_slash_dotted, Hh
        || (destruct h; [reflexivity|exact Hh])).
  repeat split; reflexivity.
Qed.

Lemma surface_paths_witness :
  surf_path bert_fresh = "/data/bert/surf/lh.inflated"%string
  /\ curv_path bert_fresh = "/data/bert/surf/lh.curv"%string
  /\ label_path bert_fresh "cortex"
     = "/data/bert/label/lh.cortex.label"%string.
Proof.
  apply (surface_paths {["SUBJECTS_DIR"%string := "/data"%string]}
           "/data" "bert" "lh" "inflated" "cortex" bert_fresh).
  - reflexivity.
  - discriminate.
  - reflexivity.
  - discriminate.
  - reflexivity.
  - reflexivity.
  - reflexivity.
  - vm_compute. reflexivity.
Defined.
